(** * Rolling candle window of the chart panel (chart.py)

    A shallow embedding of [fetch_klines] and of the data-carrying methods of
    [ChartPanel] ([__init__], [load_initial_data], [start_websocket], [stop],
    [on_message]), with the properties of the window they maintain.

    Conventions.
    - Python exceptions are values of [exn]; a call that can raise returns a
      [result].
    - The interpreter's library calls ([json.loads], [float], [requests.get])
      are the fields of the class [Host].
    - A method call is one atomic step on the panel state: the model is
      sequential. *)

From Stdlib Require Import ZArith List String Ascii Bool Lia.
Import ListNotations.

Set Implicit Arguments.

(** ** Exceptions and results *)

Inductive exn : Type :=
| ConnectionError | Timeout | HTTPError
| JSONDecodeError | KeyError | IndexError | TypeError | ValueError.

Inductive result (A : Type) : Type :=
| Returned (a : A)
| Raised (e : exn).

Arguments Returned {A} a.
Arguments Raised {A} e.

Definition bind {A B : Type} (r : result A) (k : A -> result B) : result B :=
  match r with
  | Returned a => k a
  | Raised e => Raised e
  end.

Declare Scope py_scope.
Delimit Scope py_scope with py.
Notation "x <- r ;; k" := (bind r (fun x => k))
  (at level 100, r at next level, right associativity) : py_scope.
Open Scope py_scope.

(** [try: body / except Exception: handler]. Every member of [exn] is a
    subclass of [Exception]. *)
Definition try_except {A : Type} (body : result A) (handler : exn -> result A)
  : result A :=
  match body with
  | Returned a => Returned a
  | Raised e => handler e
  end.

(** ** collections.deque with a maxlen *)

Module Deque.

Record t (A : Type) : Type := mk { maxlen : nat; items : list A }.

Section Ops.
Context {A : Type}.

(** [deque(maxlen=n)] *)
Definition new (n : nat) : t A := mk n [].

(** [len(d)] *)
Definition len (d : t A) : nat := List.length (items d).

(** [bool(d)]: a deque is true when it is not empty. *)
Definition truthy (d : t A) : bool := negb (len d =? 0).

(** [d.append(x)]: the element goes to the right end; a deque that is then
    longer than its maxlen drops its leftmost element. *)
Definition append (d : t A) (x : A) : t A :=
  let l := items d ++ [x] in
  mk (maxlen d) (if maxlen d <? List.length l then tl l else l).

(** [d.extend(xs)]: appends the elements one by one. *)
Definition extend (d : t A) (xs : list A) : t A := fold_left append xs d.

Fixpoint last_opt (l : list A) : option A :=
  match l with
  | [] => None
  | [x] => Some x
  | _ :: l' => last_opt l'
  end.

(** [d[-1]]: IndexError on an empty deque. *)
Definition getitem_last (d : t A) : result A :=
  match last_opt (items d) with
  | Some x => Returned x
  | None => Raised IndexError
  end.

(** [d[-1] = x]: IndexError on an empty deque. *)
Definition setitem_last (d : t A) (x : A) : result (t A) :=
  match items d with
  | [] => Raised IndexError
  | _ :: _ => Returned (mk (maxlen d) (removelast (items d) ++ [x]))
  end.

(** The bound a deque keeps. *)
Definition wf (d : t A) : Prop := len d <= maxlen d.

End Ops.
End Deque.

(** ** JSON values, as [json.loads] builds them *)

#[warnings="-register-all"]
Inductive json (F : Type) : Type :=
| JNull
| JBool (b : bool)
| JInt (z : Z)
| JFloat (f : F)
| JStr (s : string)
| JArr (l : list (json F))
| JObj (kv : list (string * json F)).

Arguments JNull {F}.
Arguments JBool {F} b.
Arguments JInt {F} z.
Arguments JFloat {F} f.
Arguments JStr {F} s.
Arguments JArr {F} l.
Arguments JObj {F} kv.

(** ** Candles and the panel *)

(** The 6-tuple [(open time, open, high, low, close, volume)]; [F] is the
    type of Python floats. The open time is the JSON value that was found in
    the row or the frame, stored as it is: an integer number of milliseconds
    when the exchange sends it. *)
Record Candle (F : Type) : Type := mkCandle {
  open_time : json F;
  open_price : F;
  high : F;
  low : F;
  close_price : F;
  volume : F
}.

(** A WebSocketApp object, by identity. *)
Definition conn : Type := nat.

(** The methods handed to [self.master.after]. *)
Inductive callback : Type := draw_chart | start_websocket_cb.

(** The fields of the panel that carry data, and the two traces of what it
    asked of its collaborators: [after_calls], the calls
    [self.master.after(ms, callback)] in order, and [closed], the
    connections on which [close()] was called. *)
Record ChartPanel (F : Type) : Type := mkPanel {
  symbol : string;
  interval : string;
  is_active : bool;
  ws : option conn;
  data : Deque.t (Candle F);
  after_calls : list (nat * callback);
  closed : list conn
}.

(** The candles of the panel, oldest insertion first. *)
Definition window {F : Type} (p : ChartPanel F) : list (Candle F) :=
  Deque.items (data p).

Definition times {F : Type} (l : list (Candle F)) : list (json F) :=
  map (@open_time F) l.

(** Two open times that are integers, the first less than the second. *)
Definition int_lt {F : Type} (a b : json F) : bool :=
  match a, b with
  | JInt x, JInt y => (x <? y)%Z
  | _, _ => false
  end.

(** Two open times that are integers, the first not greater than the
    second. *)
Definition int_le {F : Type} (a b : json F) : bool :=
  match a, b with
  | JInt x, JInt y => (x <=? y)%Z
  | _, _ => false
  end.

(** Adjacent open times are integers that increase strictly. *)
Fixpoint ascending {F : Type} (ts : list (json F)) : bool :=
  match ts with
  | [] => true
  | t :: rest =>
      match rest with
      | [] => true
      | t' :: _ => int_lt t t' && ascending rest
      end
  end.

(** The elements strictly between the first and the last. *)
Definition middle {A : Type} (l : list A) : list A := removelast (tl l).

(** The library functions the source calls. [float] is the type of Python
    floats, [message] the type of a text frame or of a response body. *)
Class Host : Type := {
  float : Type;
  message : Type;
  (** [json.loads(text)] *)
  json_loads : message -> result (json float);
  (** [float(x)] *)
  py_float : json float -> result float;
  (** [x == y] on two values built by [json.loads] *)
  py_eq : json float -> json float -> bool;
  (** On two integers [==] is the equality of integers. *)
  py_eq_int :
    forall a b : Z, py_eq (JInt a) (JInt b) = (a =? b)%Z;
  (** [requests.get(url, params=(symbol, interval, limit), timeout=5)]:
      the status code and the body, or the exception of the transport. *)
  requests_get : string -> string * string * nat -> result (Z * message)
}.

Section Chart.
Context {host : Host}.

Fixpoint lookup (k : string) (kv : list (string * json float))
  : option (json float) :=
  match kv with
  | [] => None
  | (k', v) :: rest => if String.eqb k k' then Some v else lookup k rest
  end.

(** [x[k]] for a string key [k]: only a dict takes one. *)
Definition getitem_key (x : json float) (k : string)
  : result (json float) :=
  match x with
  | JObj kv =>
      match lookup k kv with
      | Some v => Returned v
      | None => Raised KeyError
      end
  | _ => Raised TypeError
  end.

Definition chars (s : string) : list (json float) :=
  map (fun a => JStr (String a EmptyString)) (list_ascii_of_string s).

(** [x[i]] for a literal index [i >= 0]. *)
Definition getitem_idx (x : json float) (i : nat)
  : result (json float) :=
  match x with
  | JArr l =>
      match nth_error l i with
      | Some v => Returned v
      | None => Raised IndexError
      end
  | JStr s =>
      match nth_error (chars s) i with
      | Some v => Returned v
      | None => Raised IndexError
      end
  | JObj _ => Raised KeyError
  | _ => Raised TypeError
  end.

(** [for candle in x]: the elements of a list, the keys of a dict, the
    characters of a string. *)
Definition iter (x : json float) : result (list (json float)) :=
  match x with
  | JArr l => Returned l
  | JObj kv => Returned (map (fun p => JStr (fst p)) kv)
  | JStr s => Returned (chars s)
  | _ => Raised TypeError
  end.

(** ** fetch_klines *)

Definition upper_ascii (a : ascii) : ascii :=
  let n := nat_of_ascii a in
  if (97 <=? n) && (n <=? 122) then ascii_of_nat (n - 32) else a.

(** [s.upper()], on ASCII letters. *)
Definition upper (s : string) : string :=
  string_of_list_ascii (map upper_ascii (list_ascii_of_string s)).

Definition klines_url : string :=
  "https://api.binance.com/api/v3/klines"%string.

(** [response.raise_for_status()]: HTTPError for a 4xx or 5xx status. *)
Definition raise_for_status (status_code : Z) : result unit :=
  if (400 <=? status_code)%Z && (status_code <? 600)%Z
  then Raised HTTPError else Returned tt.

(** The tuple built for one row of the payload (lines 44-51); its fields are
    evaluated from left to right. *)
Definition format_candle (candle : json float) : result (Candle float) :=
  t <- getitem_idx candle 0 ;;
  o <- (x <- getitem_idx candle 1 ;; py_float x) ;;
  h <- (x <- getitem_idx candle 2 ;; py_float x) ;;
  l <- (x <- getitem_idx candle 3 ;; py_float x) ;;
  c <- (x <- getitem_idx candle 4 ;; py_float x) ;;
  v <- (x <- getitem_idx candle 5 ;; py_float x) ;;
  Returned (mkCandle t o h l c v).

(** The loop of lines 42-51. *)
Fixpoint format_data (rows : list (json float))
  : result (list (Candle float)) :=
  match rows with
  | [] => Returned []
  | candle :: rest =>
      c <- format_candle candle ;;
      cs <- format_data rest ;;
      Returned (c :: cs)
  end.

(** The body of the [try] (lines 37-52). *)
Definition fetch_klines_try (symbol interval : string) (limit : nat)
  : result (list (Candle float)) :=
  response <- requests_get klines_url (upper symbol, interval, limit) ;;
  _ <- raise_for_status (fst response) ;;
  data <- json_loads (snd response) ;;
  rows <- iter data ;;
  format_data rows.

(** [fetch_klines(symbol, interval, limit)]: the handler prints the exception
    and returns the empty list. *)
Definition fetch_klines (symbol interval : string) (limit : nat)
  : result (list (Candle float)) :=
  try_except (fetch_klines_try symbol interval limit)
             (fun _ => Returned []).

(** ** ChartPanel *)

Definition set_data (p : ChartPanel float) (d : Deque.t (Candle float))
  : ChartPanel float :=
  mkPanel (symbol p) (interval p) (is_active p) (ws p) d
          (after_calls p) (closed p).

Definition master_after (p : ChartPanel float) (ms : nat) (cb : callback)
  : ChartPanel float :=
  mkPanel (symbol p) (interval p) (is_active p) (ws p) (data p)
          (after_calls p ++ [(ms, cb)]) (closed p).

(** [ChartPanel.__init__(parent, symbol, interval)], up to the start of the
    fetching thread; the thread's body is [run_fetch]. *)
Definition init (symbol interval : string) : ChartPanel float :=
  mkPanel (upper symbol) interval false None (Deque.new 60) [] [].

(** [run_fetch], the body of the thread of [load_initial_data]
    (lines 110-115). *)
Definition run_fetch (p : ChartPanel float) : result (ChartPanel float) :=
  klines <- fetch_klines (symbol p) (interval p) (Deque.maxlen (data p)) ;;
  match klines with
  | _ :: _ =>
      let p1 := set_data p (Deque.extend (data p) klines) in
      let p2 := master_after p1 0 draw_chart in
      Returned (master_after p2 100 start_websocket_cb)
  | [] => Returned p
  end.

(** [start_websocket()]; [new_ws] is the WebSocketApp object it creates. *)
Definition start_websocket (p : ChartPanel float) (new_ws : conn)
  : ChartPanel float :=
  if is_active p then p
  else mkPanel (symbol p) (interval p) true (Some new_ws) (data p)
               (after_calls p) (closed p).

(** [stop()] *)
Definition stop (p : ChartPanel float) : ChartPanel float :=
  match ws p with
  | Some w =>
      mkPanel (symbol p) (interval p) false None (data p)
              (after_calls p) (closed p ++ [w])
  | None =>
      mkPanel (symbol p) (interval p) false None (data p)
              (after_calls p) (closed p)
  end.

(** The candle of a frame (lines 147-157). *)
Definition parse_kline (msg : message) : result (Candle float) :=
  data <- json_loads msg ;;
  kline <- getitem_key data "k"%string ;;
  t <- getitem_key kline "t"%string ;;
  o <- (x <- getitem_key kline "o"%string ;; py_float x) ;;
  h <- (x <- getitem_key kline "h"%string ;; py_float x) ;;
  l <- (x <- getitem_key kline "l"%string ;; py_float x) ;;
  c <- (x <- getitem_key kline "c"%string ;; py_float x) ;;
  v <- (x <- getitem_key kline "v"%string ;; py_float x) ;;
  Returned (mkCandle t o h l c v).

(** The merge of lines 159-162: a candle whose open time [==] the one of the
    last candle takes its place, any other candle is appended. *)
Definition merge (d : Deque.t (Candle float)) (new_candle : Candle float)
  : result (Deque.t (Candle float)) :=
  if Deque.truthy d then
    last <- Deque.getitem_last d ;;
    if py_eq (open_time new_candle) (open_time last)
    then Deque.setitem_last d new_candle
    else Returned (Deque.append d new_candle)
  else Returned (Deque.append d new_candle).

(** [on_message(ws, message)]; the connection that delivers the frame is the
    argument [from]. *)
Definition on_message (p : ChartPanel float) (from : conn) (msg : message)
  : result (ChartPanel float) :=
  if negb (is_active p) then Returned p
  else
    new_candle <- parse_kline msg ;;
    d <- merge (data p) new_candle ;;
    Returned (master_after (set_data p d) 0 draw_chart).

(** ** Runs of the panel *)

Inductive event : Type :=
| ev_run_fetch
| ev_start_websocket (new_ws : conn)
| ev_stop
| ev_message (from : conn) (msg : message).

Definition step (p : ChartPanel float) (e : event)
  : result (ChartPanel float) :=
  match e with
  | ev_run_fetch => run_fetch p
  | ev_start_websocket w => Returned (start_websocket p w)
  | ev_stop => Returned (stop p)
  | ev_message w m => on_message p w m
  end.

Fixpoint run (p : ChartPanel float) (es : list event)
  : result (ChartPanel float) :=
  match es with
  | [] => Returned p
  | e :: rest => p' <- step p e ;; run p' rest
  end.

(** The event of a frame [(from, msg)]. *)
Definition delivery (f : conn * message) : event :=
  ev_message (fst f) (snd f).

(** The states of a panel after its construction. An event that raises ends
    the thread that ran it and leaves the panel as it was. *)
Inductive reachable : ChartPanel float -> Prop :=
| reach_init : forall s i, reachable (init s i)
| reach_step : forall p e p',
    reachable p -> step p e = Returned p' -> reachable p'.

(** An event is in order when it cannot put a candle behind one with a later
    or equal open time: a snapshot whose candles, put after the window, are
    strictly ascending, or a frame whose candle is not older than the last
    one. *)
Definition in_order (p : ChartPanel float) (e : event) : Prop :=
  match e with
  | ev_run_fetch =>
      forall klines,
        fetch_klines (symbol p) (interval p) (Deque.maxlen (data p))
          = Returned klines ->
        ascending (times (window p ++ klines)) = true
  | ev_message _ msg =>
      forall c last,
        parse_kline msg = Returned c ->
        Deque.getitem_last (data p) = Returned last ->
        int_le (open_time last) (open_time c) = true
  | _ => True
  end.

Inductive reachable_in_order : ChartPanel float -> Prop :=
| rio_init : forall s i, reachable_in_order (init s i)
| rio_step : forall p e p',
    reachable_in_order p -> in_order p e -> step p e = Returned p' ->
    reachable_in_order p'.

(** Every event of [es], run from [p], is in order and returns. *)
Fixpoint all_in_order (p : ChartPanel float) (es : list event) : Prop :=
  match es with
  | [] => True
  | e :: rest =>
      in_order p e /\
      match step p e with
      | Returned p' => all_in_order p' rest
      | Raised _ => False
      end
  end.

End Chart.

(** ** A host for examples

    Floats are integers, a text is the JSON value it stands for, and the
    network always gives the same answer [net]. *)

Module Demo.

Definition py_float_Z (x : json Z) : result Z :=
  match x with
  | JInt z => Returned z
  | JFloat f => Returned f
  | JBool b => Returned (if b then 1 else 0)%Z
  | JStr _ => Raised ValueError
  | _ => Raised TypeError
  end.

(** [==] on the scalars of the examples, which compare no lists and no
    objects. *)
Definition py_eq_Z (x y : json Z) : bool :=
  match x, y with
  | JNull, JNull => true
  | JBool a, JBool b => Bool.eqb a b
  | JBool a, JInt b => ((if a then 1 else 0) =? b)%Z
  | JBool a, JFloat b => ((if a then 1 else 0) =? b)%Z
  | JInt a, JBool b => (a =? (if b then 1 else 0))%Z
  | JFloat a, JBool b => (a =? (if b then 1 else 0))%Z
  | JInt a, JInt b => (a =? b)%Z
  | JInt a, JFloat b => (a =? b)%Z
  | JFloat a, JInt b => (a =? b)%Z
  | JFloat a, JFloat b => (a =? b)%Z
  | JStr a, JStr b => String.eqb a b
  | _, _ => false
  end.

Definition host (net : result (Z * json Z)) : Host :=
  {| float := Z;
     message := json Z;
     json_loads := fun m => Returned m;
     py_float := py_float_Z;
     py_eq := py_eq_Z;
     py_eq_int := fun a b => eq_refl;
     requests_get := fun _ _ => net |}.

(** Every request times out. *)
Definition offline : Host := host (Raised Timeout).

(** One row of a klines payload. *)
Definition row (t : Z) : json Z :=
  JArr [JInt t; JInt 1; JInt 2; JInt 0; JInt 1; JInt 5]%Z.

(** Every request is answered 200 with one row per open time of [ts]. *)
Definition online (ts : list Z) : Host :=
  host (Returned (200%Z, JArr (map row ts))).

(** A kline frame of the live feed. *)
Definition frame (t close : Z) : json Z :=
  JObj [("k"%string,
         JObj [("t"%string, JInt t); ("o"%string, JInt 1%Z);
               ("h"%string, JInt 2%Z); ("l"%string, JInt 0%Z);
               ("c"%string, JInt close); ("v"%string, JInt 5%Z)])].

(** Integer open times, as the window stores them. *)
Definition ints (ts : list Z) : list (json Z) := map JInt ts.

(** The candle of [frame t close]. *)
Definition candle (t close : Z) : Candle Z :=
  mkCandle (JInt t) 1%Z 2%Z 0%Z close 5%Z.

(** An active panel whose window holds the candles of [ts]. *)
Definition panel (ts : list Z) : ChartPanel Z :=
  mkPanel "BTCUSDT"%string "1m"%string true (Some 1)
          (Deque.mk 60 (map (fun t => candle t 1%Z) ts)) [] [].

(** The events of a panel that fetches its snapshot, connects and then
    receives one frame per open time of [ts]. *)
Definition feed (net : result (Z * json Z)) (ts : list Z)
  : list (@event (host net)) :=
  ev_run_fetch :: ev_start_websocket 1
    :: map (fun t => @ev_message (host net) 1 (frame t 1%Z)) ts.

Fixpoint count_up (from : Z) (n : nat) : list Z :=
  match n with
  | O => []
  | S n' => from :: count_up (from + 1)%Z n'
  end.

(** The panel a run ends with. *)
Definition after (net : result (Z * json Z))
  (es : list (@event (host net))) : ChartPanel Z :=
  match @run (host net) (@init (host net) "btcusdt" "1m") es with
  | Returned p => p
  | Raised _ => @init (host net) "btcusdt" "1m"
  end.


(** Snapshot 100, 200, 300, then a frame for 250. *)
Definition disordered : ChartPanel Z :=
  after (feed (Returned (200, JArr (map row [100; 200; 300])))%Z [250%Z]).

(** Snapshot 1000, then frames for 1, 2, ..., 59: a full window. *)
Definition full : ChartPanel Z :=
  after (feed (Returned (200, JArr (map row [1000])))%Z (count_up 1 59)).

(** Snapshot 100, 200, 300, then frames for 300 and 400. *)
Definition ordered : ChartPanel Z :=
  after (feed (Returned (200, JArr (map row [100; 200; 300])))%Z
              [300; 400]%Z).

End Demo.

(** ** Runs driven by the Tk queue *)

Section Scheduled.
Context {host : Host}.

(** The only call of [start_websocket] in the source is the callback that
    [run_fetch] hands to [self.master.after(100, ...)]: the method runs
    only when that call is in [after_calls]. *)
Definition fires (p : ChartPanel float) (e : event) : Prop :=
  match e with
  | ev_start_websocket _ => In (100, start_websocket_cb) (after_calls p)
  | _ => True
  end.

Inductive reachable_by_schedule : ChartPanel float -> Prop :=
| rbs_init : forall s i, reachable_by_schedule (init s i)
| rbs_step : forall p e p',
    reachable_by_schedule p -> fires p e -> step p e = Returned p' ->
    reachable_by_schedule p'.

End Scheduled.

(** ** draw_chart: the data handed to the axes *)

(** The colours of [np.where(close >= open, 'g', 'r')]. *)
Inductive colour : Type := green | red.

(** The arrays that [draw_chart] builds from the window (lines 175-178 and
    205-212): the plotting calls that consume them are not modelled. The
    labels are kept as the open times they are formatted from. *)
Record Plot (F : Type) : Type := mkPlot {
  ohlc_data : list (F * F * F * F);
  volumes : list F;
  indexes : list nat;
  colors : list colour;
  x_ticks : list nat;
  x_label_times : list (json F)
}.

(** [l[::step]] for [step >= 1]; [skip] elements are passed over before the
    next one is taken. *)
Fixpoint every {A : Type} (skip step : nat) (l : list A) : list A :=
  match l with
  | [] => []
  | x :: rest =>
      match skip with
      | O => x :: every (step - 1) step rest
      | S k => every k step rest
      end
  end.

Definition slice_step {A : Type} (step : nat) (l : list A) : list A :=
  every 0 step l.

Section Drawing.
Context {host : Host}.

(** [a >= b] on Python floats. *)
Variable float_ge : float -> float -> bool.

(** [draw_chart()]: [None] when it returns at its guard (line 168). *)
Definition draw_chart_plot (p : ChartPanel float) : option (Plot float) :=
  if negb (is_active p) || negb (Deque.truthy (data p)) then None
  else
    let ohlc :=
      map (fun c => (open_price c, high c, low c, close_price c))
          (window p) in
    let idx := seq 0 (List.length ohlc) in
    let all_timestamps_ms := times (window p) in
    let step := Nat.max 1 (List.length all_timestamps_ms / 10) in
    Some (mkPlot ohlc
            (map (@volume float) (window p))
            idx
            (map (fun c => if float_ge (close_price c) (open_price c)
                           then green else red) (window p))
            (slice_step step idx)
            (slice_step step all_timestamps_ms)).

End Drawing.

(** ** CryptoTicker (most_code.py) *)

Definition lower_ascii (a : ascii) : ascii :=
  let n := nat_of_ascii a in
  if (65 <=? n) && (n <=? 90) then ascii_of_nat (n + 32) else a.

(** [s.lower()], on ASCII letters. *)
Definition lower (s : string) : string :=
  string_of_list_ascii (map lower_ascii (list_ascii_of_string s)).

(** What the ticker's f-strings need of floats. *)
Class Format {host : Host} : Type := {
  (** [x >= 0] *)
  ge_zero : float -> bool;
  (** the text of [x] under the format [,.2f] *)
  format_comma_2f : float -> string;
  (** the text of [x] under the format [.2f] *)
  format_2f : float -> string
}.

Module Ticker.

(** The fields of a ticker, the text and colour of its two labels, whether
    its frame is packed, and its traces: [after_calls], the arguments of the
    calls [self.parent.after(0, self.update_display, ...)] in order, and
    [closed], the connections on which [close()] was called. *)
Record t (F : Type) : Type := mk {
  symbol : string;
  display_name : string;
  is_active : bool;
  ws : option conn;
  price_text : string;
  price_fg : option string;
  change_text : string;
  change_fg : option string;
  packed : bool;
  after_calls : list (F * F * F);
  closed : list conn
}.

Section Methods.
Context {host : Host} {fmt : Format}.

(** [CryptoTicker.__init__(parent, symbol, display_name)] *)
Definition init (symbol display_name : string) : t float :=
  mk (lower symbol) display_name false None
     "--,---"%string None "--"%string None false [] [].

(** [start()]; [new_ws] is the WebSocketApp object it creates. *)
Definition start (k : t float) (new_ws : conn) : t float :=
  if is_active k then k
  else mk (symbol k) (display_name k) true (Some new_ws)
          (price_text k) (price_fg k) (change_text k) (change_fg k)
          (packed k) (after_calls k) (closed k).

(** [stop()] *)
Definition stop (k : t float) : t float :=
  mk (symbol k) (display_name k) false None
     (price_text k) (price_fg k) (change_text k) (change_fg k)
     (packed k) (after_calls k)
     (match ws k with
      | Some w => closed k ++ [w]
      | None => closed k
      end).

(** [on_message(ws, message)] *)
Definition on_message (k : t float) (from : conn) (msg : message)
  : result (t float) :=
  if negb (is_active k) then Returned k
  else
    data <- json_loads msg ;;
    price <- (x <- getitem_key data "c"%string ;; py_float x) ;;
    change <- (x <- getitem_key data "p"%string ;; py_float x) ;;
    percent <- (x <- getitem_key data "P"%string ;; py_float x) ;;
    Returned (mk (symbol k) (display_name k) (is_active k) (ws k)
                 (price_text k) (price_fg k) (change_text k) (change_fg k)
                 (packed k) (after_calls k ++ [(price, change, percent)])
                 (closed k)).

(** [update_display(price, change, percent)] *)
Definition update_display (k : t float) (price change percent : float)
  : t float :=
  if negb (is_active k) then k
  else
    let color := if ge_zero change then "green"%string else "red"%string in
    let sign := if ge_zero change then "+"%string else ""%string in
    mk (symbol k) (display_name k) (is_active k) (ws k)
       (format_comma_2f price) (Some color)
       (sign ++ format_comma_2f change ++ " (" ++ sign
          ++ format_2f percent ++ "%)")%string
       (Some color)
       (packed k) (after_calls k) (closed k).

(** [pack] and [pack_forget]: the frame of the ticker is placed or hidden. *)
Definition set_packed (k : t float) (b : bool) : t float :=
  mk (symbol k) (display_name k) (is_active k) (ws k)
     (price_text k) (price_fg k) (change_text k) (change_fg k)
     b (after_calls k) (closed k).

Definition pack (k : t float) : t float := set_packed k true.

Definition pack_forget (k : t float) : t float := set_packed k false.

(** What can happen to a ticker between two calls of its owner: a frame
    arrives, or a scheduled [update_display] runs. *)
Inductive event : Type :=
| ev_message (from : conn) (msg : message)
| ev_update (price change percent : float).

Definition step (k : t float) (e : event) : result (t float) :=
  match e with
  | ev_message w m => on_message k w m
  | ev_update a b c => Returned (update_display k a b c)
  end.

Fixpoint run (k : t float) (es : list event) : result (t float) :=
  match es with
  | [] => Returned k
  | e :: rest => k' <- step k e ;; run k' rest
  end.

End Methods.
End Ticker.

(** ** BinanceDashboardApp (most_code.py) *)

(** The events and the step of the chart panel, under the names the
    dashboard uses for them. *)
Definition chart_event {host : Host} : Type := event.

Definition chart_step {host : Host} (p : ChartPanel float) (e : chart_event)
  : result (ChartPanel float) := step p e.

Module App.

(** The three tickers, the chart panel, the two toggles with the text of
    their buttons, whether the frame of the chart is packed, and whether the
    root window was destroyed. *)
Record t (F : Type) : Type := mk {
  btc_ticker : Ticker.t F;
  eth_ticker : Ticker.t F;
  sol_ticker : Ticker.t F;
  chart_panel : ChartPanel F;
  graph_visible : bool;
  graph_frame_packed : bool;
  graph_btn : string;
  sol_visible : bool;
  sol_btn : string;
  destroyed : bool
}.

Section Methods.
Context {host : Host} {fmt : Format}.

(** [BinanceDashboardApp.__init__(root)]; [w_btc] and [w_eth] are the
    WebSocketApp objects of the two tickers it starts. The chart panel is
    the one its constructor leaves, with its fetching thread yet to run. *)
Definition init (w_btc w_eth : conn) : t float :=
  mk (Ticker.start
        (Ticker.pack (Ticker.init "btcusdt" "BTC/USDT")) w_btc)
     (Ticker.start
        (Ticker.pack (Ticker.init "ethusdt" "ETH/USDT")) w_eth)
     (Ticker.init "solusdt" "SOL/USDT")
     (init "BTCUSDT" "1m")
     true true "Show Graph"%string
     false "Show SOL/USDT"%string
     false.

(** [toggle_graph()] *)
Definition toggle_graph (a : t float) : t float :=
  if graph_visible a then
    mk (btc_ticker a) (eth_ticker a) (sol_ticker a) (chart_panel a)
       false false "Show Chart"%string
       (sol_visible a) (sol_btn a) (destroyed a)
  else
    mk (btc_ticker a) (eth_ticker a) (sol_ticker a) (chart_panel a)
       true true "Hide Chart"%string
       (sol_visible a) (sol_btn a) (destroyed a).

(** [toggle_sol()]; [new_ws] is the WebSocketApp object that the start of
    the ticker creates. *)
Definition toggle_sol (a : t float) (new_ws : conn) : t float :=
  if sol_visible a then
    mk (btc_ticker a) (eth_ticker a)
       (Ticker.pack_forget (Ticker.stop (sol_ticker a)))
       (chart_panel a)
       (graph_visible a) (graph_frame_packed a) (graph_btn a)
       false "Show SOL/USDT"%string (destroyed a)
  else
    mk (btc_ticker a) (eth_ticker a)
       (Ticker.start (Ticker.pack (sol_ticker a)) new_ws)
       (chart_panel a)
       (graph_visible a) (graph_frame_packed a) (graph_btn a)
       true "Hide SOL/USDT"%string (destroyed a).

(** [BinanceDashboardApp.on_closing()] *)
Definition on_closing (a : t float) : t float :=
  mk (Ticker.stop (btc_ticker a)) (Ticker.stop (eth_ticker a))
     (Ticker.stop (sol_ticker a)) (stop (chart_panel a))
     (graph_visible a) (graph_frame_packed a) (graph_btn a)
     (sol_visible a) (sol_btn a) true.

Inductive which : Type := btc | eth | sol.

Definition ticker (a : t float) (w : which) : Ticker.t float :=
  match w with
  | btc => btc_ticker a
  | eth => eth_ticker a
  | sol => sol_ticker a
  end.

Definition set_ticker (a : t float) (w : which) (k : Ticker.t float)
  : t float :=
  mk (match w with btc => k | _ => btc_ticker a end)
     (match w with eth => k | _ => eth_ticker a end)
     (match w with sol => k | _ => sol_ticker a end)
     (chart_panel a)
     (graph_visible a) (graph_frame_packed a) (graph_btn a)
     (sol_visible a) (sol_btn a) (destroyed a).

Definition set_chart_panel (a : t float) (p : ChartPanel float) : t float :=
  mk (btc_ticker a) (eth_ticker a) (sol_ticker a) p
     (graph_visible a) (graph_frame_packed a) (graph_btn a)
     (sol_visible a) (sol_btn a) (destroyed a).

(** What runs on the dashboard before it is closed: a press of one of the
    two buttons, an event of one of the tickers, an event of the chart
    panel. *)
Inductive event : Type :=
| ev_toggle_graph
| ev_toggle_sol (new_ws : conn)
| ev_ticker (w : which) (e : Ticker.event)
| ev_chart (e : chart_event).

Definition step (a : t float) (e : event) : result (t float) :=
  match e with
  | ev_toggle_graph => Returned (toggle_graph a)
  | ev_toggle_sol w => Returned (toggle_sol a w)
  | ev_ticker w e =>
      k <- Ticker.step (ticker a w) e ;; Returned (set_ticker a w k)
  | ev_chart e =>
      p <- chart_step (chart_panel a) e ;; Returned (set_chart_panel a p)
  end.

Inductive reachable : t float -> Prop :=
| reach_init : forall w_btc w_eth, reachable (init w_btc w_eth)
| reach_step : forall a e a',
    reachable a -> step a e = Returned a' -> reachable a'.

End Methods.
End App.

(** ** A format for examples *)

Module DemoApp.

Definition sign_text (z : Z) : string :=
  if (0 <=? z)%Z then "up"%string else "down"%string.

(** Integers stand for floats; a number is printed as its sign only. *)
Definition fmt (net : result (Z * json Z)) : @Format (Demo.host net) :=
  @Build_Format (Demo.host net) (fun z : Z => (0 <=? z)%Z)
                sign_text sign_text.

(** A frame of the ticker stream. *)
Definition tick (price change percent : Z) : json Z :=
  JObj [("c"%string, JInt price); ("p"%string, JInt change);
        ("P"%string, JInt percent)].

(** The answer 200 with one row per open time of [ts]. *)
Definition net (ts : list Z) : result (Z * json Z) :=
  Returned (200%Z, JArr (map Demo.row ts)).

(** The panel after a snapshot of 61 rows, 1 to 61. *)
Definition snapshot61 : ChartPanel Z :=
  Demo.after (net := net (Demo.count_up 1 61)) [ev_run_fetch].

(** The panel after the snapshot 100, 200, 300; then started; then after a
    frame for 400. *)
Definition seeded : ChartPanel Z :=
  Demo.after (net := net [100; 200; 300]%Z) [ev_run_fetch].

Definition started : ChartPanel Z :=
  Demo.after (Demo.feed (net [100; 200; 300]%Z) []).

Definition live : ChartPanel Z :=
  Demo.after (Demo.feed (net [100; 200; 300]%Z) [400%Z]).

(** The panel after the snapshot 100, 200, 300 and stop(); then after the
    scheduled start has run and a frame for 400 was delivered. *)
Definition halted : ChartPanel Z :=
  Demo.after (net := net [100; 200; 300]%Z) [ev_run_fetch; ev_stop].

Definition revived : ChartPanel Z :=
  Demo.after (net := net [100; 200; 300]%Z)
    [ev_run_fetch; ev_stop; ev_start_websocket 1;
     @ev_message (Demo.host (net [100; 200; 300]%Z)) 1
        (Demo.frame 400 1)].

(** The answer of the stream to a subscription: an object without k. *)
Definition ack : json Z :=
  JObj [("result"%string, JNull); ("id"%string, JInt 1%Z)].

(** A payload whose second row has two columns only. *)
Definition short_payload : result (Z * json Z) :=
  Returned (200%Z, JArr [Demo.row 100; JArr [JInt 200%Z; JInt 1%Z]]).

(** The dashboard after one press of the SOL button. *)
Definition with_sol : App.t Z :=
  @App.toggle_sol (Demo.host (net []))
    (@App.init (Demo.host (net [])) 1 2) 3.

End DemoApp.

(** * Properties *)

(** ** Lists and deques *)

Section DequeFacts.
Context {A : Type}.
Implicit Types (d : Deque.t A) (l : list A) (x : A).

Lemma last_opt_app l x : Deque.last_opt (l ++ [x]) = Some x.
Proof.
  induction l as [|a l IH]; [reflexivity|].
  simpl. destruct (l ++ [x]) eqn:E; [destruct l; discriminate|exact IH].
Qed.

Lemma last_opt_none l : Deque.last_opt l = None -> l = [].
Proof.
  induction l as [|a l IH]; [reflexivity|].
  simpl. destruct l; [discriminate|]. intros H. apply IH in H. discriminate.
Qed.

Lemma last_opt_split l x :
  Deque.last_opt l = Some x -> l = removelast l ++ [x].
Proof.
  induction l as [|a l IH]; [discriminate|].
  destruct l as [|b l].
  - simpl. intros [= ->]. reflexivity.
  - intros H. change (Deque.last_opt (b :: l) = Some x) in H.
    apply IH in H. change (removelast (a :: b :: l)) with
      (a :: removelast (b :: l)).
    rewrite <- app_comm_cons. f_equal. exact H.
Qed.

Lemma append_maxlen d x : Deque.maxlen (Deque.append d x) = Deque.maxlen d.
Proof. reflexivity. Qed.

Lemma append_items_room d x :
  Deque.len d < Deque.maxlen d ->
  Deque.items (Deque.append d x) = Deque.items d ++ [x].
Proof.
  unfold Deque.len, Deque.append. intros H. simpl.
  rewrite length_app. simpl.
  destruct (Nat.ltb_spec (Deque.maxlen d) (List.length (Deque.items d) + 1));
    [lia|reflexivity].
Qed.

Lemma append_items_full d x :
  Deque.maxlen d <= Deque.len d ->
  Deque.items (Deque.append d x) = tl (Deque.items d ++ [x]).
Proof.
  unfold Deque.len, Deque.append. intros H. simpl.
  rewrite length_app. simpl.
  destruct (Nat.ltb_spec (Deque.maxlen d) (List.length (Deque.items d) + 1));
    [reflexivity|lia].
Qed.

Lemma append_len d x :
  Deque.wf d ->
  Deque.len (Deque.append d x) = Nat.min (S (Deque.len d)) (Deque.maxlen d).
Proof.
  unfold Deque.wf. intros H.
  destruct (Nat.eq_dec (Deque.len d) (Deque.maxlen d)) as [E|E].
  - unfold Deque.len at 1. rewrite append_items_full by lia.
    unfold Deque.len in *. destruct (Deque.items d) as [|a l].
    + cbn [app tl List.length] in *. lia.
    + cbn [app tl List.length] in *. rewrite length_app. cbn [List.length]. lia.
  - unfold Deque.len at 1. rewrite append_items_room by lia.
    unfold Deque.len in *. rewrite length_app. cbn [List.length]. lia.
Qed.

Lemma append_wf d x : Deque.wf d -> Deque.wf (Deque.append d x).
Proof.
  intros H. unfold Deque.wf. rewrite append_len, append_maxlen by exact H.
  lia.
Qed.

Lemma extend_maxlen xs : forall d,
  Deque.maxlen (Deque.extend d xs) = Deque.maxlen d.
Proof.
  unfold Deque.extend. induction xs as [|x xs IH]; intros d; simpl.
  - reflexivity.
  - rewrite IH. apply append_maxlen.
Qed.

Lemma extend_wf xs : forall d, Deque.wf d -> Deque.wf (Deque.extend d xs).
Proof.
  unfold Deque.extend. induction xs as [|x xs IH]; intros d H; simpl.
  - exact H.
  - apply IH, append_wf, H.
Qed.

(** What [append] and [extend] keep is a suffix of what they were given. *)
Lemma append_suffix d x :
  exists pre, Deque.items d ++ [x] = pre ++ Deque.items (Deque.append d x).
Proof.
  unfold Deque.append. simpl.
  destruct (Deque.maxlen d <? List.length (Deque.items d ++ [x])).
  - destruct (Deque.items d ++ [x]) as [|a l].
    + exists []. reflexivity.
    + exists [a]. reflexivity.
  - exists []. reflexivity.
Qed.

Lemma extend_suffix xs : forall d,
  exists pre, Deque.items d ++ xs = pre ++ Deque.items (Deque.extend d xs).
Proof.
  unfold Deque.extend. induction xs as [|x xs IH]; intros d; simpl.
  - exists []. rewrite app_nil_r. reflexivity.
  - destruct (IH (Deque.append d x)) as [pre' H'].
    destruct (append_suffix d x) as [pre H].
    exists (pre ++ pre').
    change (x :: xs) with ([x] ++ xs).
    rewrite app_assoc, H, <- !app_assoc, H'. reflexivity.
Qed.

(** With room for one element, the element appended is the last one. *)
Lemma append_last d x :
  0 < Deque.maxlen d -> Deque.wf d ->
  Deque.last_opt (Deque.items (Deque.append d x)) = Some x.
Proof.
  unfold Deque.wf. intros Hpos Hwf.
  destruct (Nat.eq_dec (Deque.len d) (Deque.maxlen d)) as [E|E].
  - rewrite append_items_full by lia.
    unfold Deque.len in E. destruct (Deque.items d) as [|a l].
    + simpl in E. lia.
    + simpl. apply last_opt_app.
  - rewrite append_items_room by lia. apply last_opt_app.
Qed.

Lemma extend_nonempty xs : forall d,
  0 < Deque.maxlen d -> Deque.wf d -> xs <> [] ->
  Deque.items (Deque.extend d xs) <> [].
Proof.
  induction xs as [|x xs IH] using rev_ind; intros d Hpos Hwf Hne.
  - congruence.
  - unfold Deque.extend. rewrite fold_left_app. cbn [fold_left].
    fold (Deque.extend d xs). intros E.
    assert (L : Deque.last_opt
                  (Deque.items (Deque.append (Deque.extend d xs) x)) = Some x).
    { apply append_last.
      - rewrite extend_maxlen. exact Hpos.
      - apply extend_wf, Hwf. }
    rewrite E in L. discriminate.
Qed.

End DequeFacts.

(** ** Ascending lists of open times *)

Section AscendingFacts.
Context {F : Type}.
Implicit Types (a b c x y : json F) (l pre : list (json F)).

Lemma int_lt_spec a b :
  int_lt a b = true <-> exists m n, a = JInt m /\ b = JInt n /\ (m < n)%Z.
Proof.
  split.
  - destruct a, b; cbn; try discriminate. intros H.
    apply Z.ltb_lt in H. eauto.
  - intros (m & n & -> & -> & H). cbn. apply Z.ltb_lt, H.
Qed.

Lemma int_le_spec a b :
  int_le a b = true <-> exists m n, a = JInt m /\ b = JInt n /\ (m <= n)%Z.
Proof.
  split.
  - destruct a, b; cbn; try discriminate. intros H.
    apply Z.leb_le in H. eauto.
  - intros (m & n & -> & -> & H). cbn. apply Z.leb_le, H.
Qed.

Lemma int_lt_trans a b c :
  int_lt a b = true -> int_lt b c = true -> int_lt a c = true.
Proof.
  intros H1 H2. apply int_lt_spec in H1 as (m & n & -> & -> & H1).
  apply int_lt_spec in H2 as (n' & k & E & -> & H2). injection E as <-.
  apply int_lt_spec. exists m, k. repeat split. lia.
Qed.

Lemma ascending_tail a l : ascending (a :: l) = true -> ascending l = true.
Proof.
  destruct l as [|b l]; [reflexivity|].
  cbn [ascending]. intros H. apply andb_true_iff in H. apply H.
Qed.

Lemma ascending_suffix pre l :
  ascending (pre ++ l) = true -> ascending l = true.
Proof.
  induction pre as [|a pre IH]; [trivial|].
  intros H. apply IH. exact (ascending_tail _ _ H).
Qed.

Lemma ascending_snoc l x :
  ascending l = true ->
  (forall y, Deque.last_opt l = Some y -> int_lt y x = true) ->
  ascending (l ++ [x]) = true.
Proof.
  induction l as [|a l IH]; intros Hl Hlast; [reflexivity|].
  destruct l as [|b l].
  - cbn. rewrite andb_true_r. apply Hlast. reflexivity.
  - change (ascending (a :: b :: (l ++ [x])) = true).
    cbn [ascending] in Hl |- *. apply andb_true_iff in Hl as [Hab Hl].
    apply andb_true_iff. split; [exact Hab|].
    apply (IH Hl). intros y Hy. apply Hlast. exact Hy.
Qed.

Lemma ascending_head a l :
  ascending (a :: l) = true -> forall x, In x l -> int_lt a x = true.
Proof.
  revert a. induction l as [|b l IH]; intros a H x Hx; [destruct Hx|].
  cbn [ascending] in H. apply andb_true_iff in H as [Hab Hl].
  destruct Hx as [<-|Hx]; [exact Hab|].
  specialize (IH b Hl x Hx). exact (int_lt_trans _ _ _ Hab IH).
Qed.

End AscendingFacts.

Section TimesFacts.
Context {F : Type}.
Implicit Types (l : list (Candle F)) (c : Candle F).

Lemma times_app l l' : times (l ++ l') = times l ++ times l'.
Proof. apply map_app. Qed.

Lemma times_last l :
  Deque.last_opt (times l) = option_map (@open_time F) (Deque.last_opt l).
Proof.
  induction l as [|a l IH]; [reflexivity|].
  destruct l as [|b l]; [reflexivity|]. exact IH.
Qed.

(** Putting a candle with the same open time in the place of the last one
    leaves the open times as they were. *)
Lemma times_replace_last l c last :
  Deque.last_opt l = Some last -> open_time c = open_time last ->
  times (removelast l ++ [c]) = times l.
Proof.
  intros Hl Ht. rewrite (last_opt_split _ Hl) at 2.
  rewrite !times_app. cbn. rewrite Ht. reflexivity.
Qed.

End TimesFacts.

(** ** The merge *)

Section MergeFacts.
Context {host : Host}.
Implicit Types (d : Deque.t (Candle float)) (c : Candle float).

Lemma truthy_last d :
  Deque.truthy d = true -> exists last, Deque.getitem_last d = Returned last.
Proof.
  unfold Deque.truthy, Deque.getitem_last, Deque.len. intros H.
  destruct (Deque.last_opt (Deque.items d)) as [x|] eqn:E; [eauto|].
  apply last_opt_none in E. rewrite E in H. discriminate.
Qed.

Lemma last_truthy d last :
  Deque.getitem_last d = Returned last -> Deque.truthy d = true.
Proof.
  unfold Deque.truthy, Deque.getitem_last, Deque.len.
  destruct (Deque.items d); [discriminate|reflexivity].
Qed.

Lemma getitem_last_spec d last :
  Deque.getitem_last d = Returned last <->
  Deque.last_opt (Deque.items d) = Some last.
Proof.
  unfold Deque.getitem_last.
  destruct (Deque.last_opt (Deque.items d)); split; congruence.
Qed.

(** The replace branch. *)
Lemma merge_same_time d c last :
  Deque.getitem_last d = Returned last ->
  py_eq (open_time c) (open_time last) = true ->
  merge d c =
    Returned (Deque.mk (Deque.maxlen d) (removelast (Deque.items d) ++ [c])).
Proof.
  intros Hl Ht. unfold merge.
  rewrite (last_truthy _ Hl), Hl. cbn [bind]. rewrite Ht.
  unfold Deque.setitem_last.
  pose proof (last_truthy _ Hl) as Htr.
  unfold Deque.truthy, Deque.len in Htr.
  destruct (Deque.items d); [discriminate|reflexivity].
Qed.

(** The append branch. *)
Lemma merge_other_time d c :
  (forall last, Deque.getitem_last d = Returned last ->
                py_eq (open_time c) (open_time last) = false) ->
  merge d c = Returned (Deque.append d c).
Proof.
  intros H. unfold merge.
  destruct (Deque.truthy d) eqn:Htr; [|reflexivity].
  destruct (truthy_last _ Htr) as [last Hl]. rewrite Hl. cbn [bind].
  rewrite (H _ Hl). reflexivity.
Qed.

(** The merge never raises, and does one of the two. *)
Lemma merge_cases d c :
  (exists last, Deque.getitem_last d = Returned last /\
                py_eq (open_time c) (open_time last) = true /\
                merge d c = Returned (Deque.mk (Deque.maxlen d)
                                       (removelast (Deque.items d) ++ [c])))
  \/ ((forall last, Deque.getitem_last d = Returned last ->
                    py_eq (open_time c) (open_time last) = false) /\
      merge d c = Returned (Deque.append d c)).
Proof.
  assert (D : (exists last, Deque.getitem_last d = Returned last) \/
              (forall last, Deque.getitem_last d <> Returned last)).
  { destruct (Deque.getitem_last d) as [last|e]; [left; eauto|right].
    intros last; discriminate. }
  destruct D as [[last Hl]|Hn].
  - destruct (py_eq (open_time c) (open_time last)) eqn:E.
    + left. exists last. split; [exact Hl|]. split; [exact E|].
      apply (merge_same_time _ _ Hl E).
    + assert (H : forall l0, Deque.getitem_last d = Returned l0 ->
                             py_eq (open_time c) (open_time l0) = false).
      { intros l0 H0. rewrite Hl in H0. injection H0 as <-. exact E. }
      right. split; [exact H|]. apply merge_other_time, H.
  - assert (H : forall l0, Deque.getitem_last d = Returned l0 ->
                           py_eq (open_time c) (open_time l0) = false).
    { intros l0 H0. destruct (Hn _ H0). }
    right. split; [exact H|]. apply merge_other_time, H.
Qed.

(** On integer open times the test of the merge is the equality of the
    integers. *)
Lemma py_eq_times c last (t t' : Z) :
  open_time c = JInt t -> open_time last = JInt t' ->
  py_eq (open_time c) (open_time last) = (t =? t')%Z.
Proof. intros -> ->. apply py_eq_int. Qed.

Lemma merge_returns d c : exists d', merge d c = Returned d'.
Proof.
  destruct (merge_cases d c) as [(last & _ & _ & H)|[_ H]]; eauto.
Qed.

Lemma removelast_snoc_length (A : Type) (l : list A) (x : A) :
  l <> [] -> List.length (removelast l ++ [x]) = List.length l.
Proof.
  intros H. destruct (exists_last H) as (l' & a & ->).
  rewrite removelast_last, !length_app. reflexivity.
Qed.

(** The merge keeps the maxlen and the bound. *)
Lemma merge_wf d c d' :
  merge d c = Returned d' -> Deque.wf d ->
  Deque.maxlen d' = Deque.maxlen d /\ Deque.wf d'.
Proof.
  intros Hm Hwf.
  destruct (merge_cases d c) as [(last & Hl & _ & H)|[_ H]];
    rewrite H in Hm; injection Hm as <-.
  - split; [reflexivity|]. unfold Deque.wf, Deque.len in *. cbn.
    rewrite removelast_snoc_length; [exact Hwf|].
    apply getitem_last_spec in Hl. intros E. rewrite E in Hl. discriminate.
  - split; [apply append_maxlen|apply append_wf, Hwf].
Qed.

End MergeFacts.

(** ** The panel *)

Section PanelFacts.
Context {host : Host}.
Implicit Types (p : ChartPanel float) (c : Candle float) (msg : message).

(** A frame that decodes, delivered to an active panel, is merged and one
    redraw is scheduled. *)
Lemma on_message_active p from msg c :
  is_active p = true -> parse_kline msg = Returned c ->
  on_message p from msg =
    (d <- merge (data p) c ;;
     Returned (master_after (set_data p d) 0 draw_chart)).
Proof.
  intros Ha Hc. unfold on_message. rewrite Ha, Hc. reflexivity.
Qed.

Lemma on_message_inactive p from msg :
  is_active p = false -> on_message p from msg = Returned p.
Proof. intros Ha. unfold on_message. rewrite Ha. reflexivity. Qed.

Lemma middle_split (A : Type) (l : list A) :
  2 <= List.length l ->
  exists a z, l = a :: middle l ++ [z] /\ Deque.last_opt l = Some z.
Proof.
  destruct l as [|a l]; cbn [List.length]; [lia|]. intros H.
  assert (Hne : l <> []) by (destruct l; [cbn in H; lia|discriminate]).
  destruct (exists_last Hne) as (m & z & ->).
  exists a, z. unfold middle. cbn [tl]. rewrite removelast_last.
  split; [reflexivity|].
  change (a :: m ++ [z]) with ((a :: m) ++ [z]). apply last_opt_app.
Qed.

(** C4. When the last candle of the window has open time t, a frame with
    open time t takes the place of the last candle and the length of the
    window stays as it was; after two such frames in a row the length is
    still the same and the last candle is the one of the second frame. *)
Theorem same_open_time_replaces_last p from m1 m2 c1 c2 last (t : Z) :
  is_active p = true ->
  Deque.getitem_last (data p) = Returned last -> open_time last = JInt t ->
  parse_kline m1 = Returned c1 -> open_time c1 = JInt t ->
  parse_kline m2 = Returned c2 -> open_time c2 = JInt t ->
  exists p1 p2,
    on_message p from m1 = Returned p1 /\
    window p1 = removelast (window p) ++ [c1] /\
    Deque.len (data p1) = Deque.len (data p) /\
    on_message p1 from m2 = Returned p2 /\
    window p2 = removelast (window p) ++ [c2] /\
    Deque.len (data p2) = Deque.len (data p) /\
    Deque.getitem_last (data p2) = Returned c2.
Proof.
  intros Ha Hl T0 H1 T1 H2 T2.
  assert (E1 : py_eq (open_time c1) (open_time last) = true)
    by (rewrite (py_eq_times _ _ T1 T0); apply Z.eqb_refl).
  assert (E2 : py_eq (open_time c2) (open_time c1) = true)
    by (rewrite (py_eq_times _ _ T2 T1); apply Z.eqb_refl).
  assert (Hne : window p <> []).
  { apply getitem_last_spec in Hl. unfold window. intros E.
    rewrite E in Hl. discriminate. }
  set (d1 := Deque.mk (Deque.maxlen (data p))
                      (removelast (Deque.items (data p)) ++ [c1])).
  set (p1 := master_after (set_data p d1) 0 draw_chart).
  set (d2 := Deque.mk (Deque.maxlen (data p))
                      (removelast (Deque.items (data p)) ++ [c2])).
  set (p2 := master_after (set_data p1 d2) 0 draw_chart).
  assert (Hl1 : Deque.getitem_last (data p1) = Returned c1).
  { apply getitem_last_spec. cbn. apply last_opt_app. }
  exists p1, p2. repeat split.
  - erewrite on_message_active by eassumption.
    erewrite merge_same_time by eassumption. reflexivity.
  - unfold Deque.len. cbn. apply removelast_snoc_length, Hne.
  - assert (Ha1 : is_active p1 = true) by exact Ha.
    erewrite on_message_active by eassumption.
    erewrite merge_same_time; [|exact Hl1|exact E2].
    cbn. rewrite removelast_last. reflexivity.
  - unfold Deque.len. cbn. apply removelast_snoc_length, Hne.
  - apply getitem_last_spec. cbn. apply last_opt_app.
Qed.

(** C1, as the code has it. A frame whose open time is less than the one of
    the last candle is not dropped: the call returns, the candle is appended
    to the window, and with it as the last candle the window differs from
    the one before. *)
Theorem stale_candle_is_appended p from msg c last (t t' : Z) :
  is_active p = true ->
  Deque.getitem_last (data p) = Returned last ->
  parse_kline msg = Returned c ->
  open_time c = JInt t -> open_time last = JInt t' -> (t < t')%Z ->
  exists p',
    on_message p from msg = Returned p' /\
    data p' = Deque.append (data p) c /\
    window p' <> window p.
Proof.
  intros Ha Hl Hc Tc Tl Hlt.
  assert (Hm : merge (data p) c = Returned (Deque.append (data p) c)).
  { apply merge_other_time. intros l0 H0. rewrite Hl in H0.
    injection H0 as <-. rewrite (py_eq_times _ _ Tc Tl).
    apply Z.eqb_neq. lia. }
  assert (Hcl : c <> last).
  { intros ->. rewrite Tc in Tl. injection Tl as Tl. lia. }
  exists (master_after (set_data p (Deque.append (data p) c)) 0 draw_chart).
  erewrite on_message_active by eassumption. rewrite Hm.
  split; [reflexivity|]. split; [reflexivity|].
  unfold window. cbn [data master_after set_data].
  intros E. apply getitem_last_spec in Hl. rewrite <- E in Hl.
  unfold Deque.append in Hl. cbn [Deque.items] in Hl.
  destruct (Deque.maxlen (data p)
              <? List.length (Deque.items (data p) ++ [c])).
  - destruct (Deque.items (data p)) as [|a l] eqn:Ei.
    + rewrite <- E in Ei. discriminate.
    + cbn [app tl] in Hl. rewrite last_opt_app in Hl.
      injection Hl as Hl. exact (Hcl Hl).
  - rewrite last_opt_app in Hl. injection Hl as Hl. exact (Hcl Hl).
Qed.

(** C7, as the code has it. Every frame that decodes, delivered to an active
    panel, schedules one redraw, whatever its open time: there is no case
    that schedules none. *)
Theorem active_frame_schedules_one_draw p from msg c :
  is_active p = true ->
  parse_kline msg = Returned c ->
  exists p',
    on_message p from msg = Returned p' /\
    after_calls p' = after_calls p ++ [(0, draw_chart)].
Proof.
  intros Ha Hc. destruct (merge_returns (data p) c) as [d Hd].
  exists (master_after (set_data p d) 0 draw_chart).
  erewrite on_message_active by eassumption. rewrite Hd.
  split; reflexivity.
Qed.

(** C10. In a window of three candles or more, one merge leaves the candles
    between the first and the last where they are: a candle whose open time
    [==] the one of the last candle changes the last place only, and any
    other candle is put at the back, the first candle leaving when there is
    no room. *)
Theorem merge_keeps_middle (d : Deque.t (Candle float)) c :
  3 <= Deque.len d ->
  exists first last d',
    Deque.items d = first :: middle (Deque.items d) ++ [last] /\
    middle (Deque.items d) <> [] /\
    merge d c = Returned d' /\
    ((py_eq (open_time c) (open_time last) = true /\
      Deque.items d' = first :: middle (Deque.items d) ++ [c])
     \/ (py_eq (open_time c) (open_time last) = false /\
         Deque.len d < Deque.maxlen d /\
         Deque.items d' = first :: middle (Deque.items d) ++ [last; c])
     \/ (py_eq (open_time c) (open_time last) = false /\
         Deque.maxlen d <= Deque.len d /\
         Deque.items d' = middle (Deque.items d) ++ [last; c])).
Proof.
  intros Hlen. unfold Deque.len in Hlen.
  destruct (middle_split (Deque.items d)) as (a & z & Hs & Hz); [lia|].
  assert (Hmid : middle (Deque.items d) <> []).
  { intros E. rewrite Hs, E in Hlen. cbn in Hlen. lia. }
  assert (Hl : Deque.getitem_last d = Returned z)
    by (apply getitem_last_spec, Hz).
  exists a, z.
  destruct (merge_cases d c) as [(l0 & Hl0 & Ht & Hm)|[Hne Hm]].
  - rewrite Hl in Hl0. injection Hl0 as <-.
    eexists. split; [exact Hs|]. split; [exact Hmid|].
    split; [exact Hm|]. left. split; [exact Ht|].
    cbn [Deque.items]. rewrite Hs at 1.
    change (a :: middle (Deque.items d) ++ [z])
      with ((a :: middle (Deque.items d)) ++ [z]).
    rewrite removelast_last. reflexivity.
  - specialize (Hne _ Hl).
    exists (Deque.append d c). split; [exact Hs|]. split; [exact Hmid|].
    split; [exact Hm|]. right.
    destruct (Nat.lt_ge_cases (Deque.len d) (Deque.maxlen d)) as [R|R].
    + left. split; [exact Hne|]. split; [exact R|].
      rewrite append_items_room by exact R. rewrite Hs at 1.
      cbn [app]. rewrite <- app_assoc. reflexivity.
    + right. split; [exact Hne|]. split; [exact R|].
      rewrite append_items_full by exact R. rewrite Hs at 1.
      cbn [app tl]. rewrite <- app_assoc. reflexivity.
Qed.

End PanelFacts.

(** ** Start, stop and the snapshot *)

Section LifecycleFacts.
Context {host : Host}.
Implicit Types (p : ChartPanel float) (c : Candle float) (msg : message).

Lemma stop_stop p : stop (stop p) = stop p.
Proof. unfold stop. destruct (ws p); reflexivity. Qed.

Lemma stop_inactive p : is_active (stop p) = false.
Proof. unfold stop. destruct (ws p); reflexivity. Qed.

(** C6, as the code has it. A second stop() changes nothing and returns,
    and the frames that are delivered while the panel is stopped, however
    many and from whichever connection, return at once and leave the panel,
    and so its window, as stop() left it. stop() does not take back the
    call of [start_websocket] that a snapshot has scheduled: what is
    scheduled stays scheduled, and when that call runs the panel is active
    again and the next frame is decoded and merged into the window that
    stop() left. *)
Theorem stop_gates_until_start
  p (frames : list (conn * message)) (new_ws from : conn) msg :
  stop (stop p) = stop p /\
  step (stop p) ev_stop = Returned (stop p) /\
  is_active (stop p) = false /\
  run (stop p) (map delivery frames) = Returned (stop p) /\
  after_calls (stop p) = after_calls p /\
  is_active (start_websocket (stop p) new_ws) = true /\
  on_message (start_websocket (stop p) new_ws) from msg =
    (new_candle <- parse_kline msg ;;
     d <- merge (data p) new_candle ;;
     Returned (master_after
                 (set_data (start_websocket (stop p) new_ws) d)
                 0 draw_chart)).
Proof.
  split; [apply stop_stop|]. split; [cbn; f_equal; apply stop_stop|].
  split; [apply stop_inactive|]. split.
  { induction frames as [|f frames IH]; [reflexivity|].
    cbn [map run]. unfold delivery at 1. cbn [step].
    rewrite on_message_inactive by apply stop_inactive. exact IH. }
  split; [unfold stop; destruct (ws p); reflexivity|].
  unfold start_websocket. rewrite stop_inactive.
  split; [reflexivity|].
  unfold on_message. cbn [is_active negb data].
  unfold stop. destruct (ws p); reflexivity.
Qed.


(** C9. When the snapshot has no candle the thread ends without an error
    and the panel is as its construction left it: the window empty, the
    panel not active, and nothing scheduled, so that the websocket is not
    started. A snapshot with a candle fills the window and schedules the
    redraw and the start of the websocket. *)
Theorem empty_snapshot_leaves_panel_idle (s i : string) klines :
  fetch_klines (upper s) i 60 = Returned klines ->
  exists p',
    run_fetch (init s i) = Returned p' /\
    (klines = [] ->
     p' = init s i /\ window p' = [] /\ is_active p' = false /\
     ws p' = None /\ after_calls p' = []) /\
    (klines <> [] ->
     window p' <> [] /\ is_active p' = false /\
     after_calls p' = [(0, draw_chart); (100, start_websocket_cb)]).
Proof.
  intros Hf. unfold run_fetch. cbn [init symbol interval data Deque.maxlen
    Deque.new]. rewrite Hf. cbn [bind].
  destruct klines as [|k ks].
  - eexists. split; [reflexivity|]. split; [|congruence].
    intros _. repeat split.
  - eexists. split; [reflexivity|]. split; [discriminate|].
    intros _. split; [|split; reflexivity].
    unfold window. cbn [data master_after set_data].
    apply extend_nonempty.
    + cbn. lia.
    + unfold Deque.wf, Deque.len. cbn. lia.
    + discriminate.
Qed.

Lemma format_data_rows rows : forall cs,
  format_data rows = Returned cs ->
  Forall2 (fun r c => format_candle r = Returned c) rows cs.
Proof.
  induction rows as [|r rows IH]; intros cs H; cbn in H.
  - injection H as <-. constructor.
  - destruct (format_candle r) as [c|e] eqn:Hc; [|discriminate].
    cbn [bind] in H.
    destruct (format_data rows) as [cs'|e] eqn:Hr; [|discriminate].
    cbn [bind] in H. injection H as <-.
    constructor; [exact Hc|]. apply IH. reflexivity.
Qed.

(** C8, as the code has it. [fetch_klines] has no failing outcome. When the
    request raises, when the status is 4xx or 5xx, when the body is not
    JSON, or when the payload cannot be walked or one of its rows cannot be
    formatted, it returns the empty list. Otherwise it returns one candle
    per row of the payload, in the order of the payload, whatever their open
    times are. *)
Theorem fetch_klines_never_raises (s i : string) (n : nat) :
  (fetch_klines s i n = Returned [] /\
   ((exists e, requests_get klines_url (upper s, i, n) = Raised e)
    \/ (exists status body,
          requests_get klines_url (upper s, i, n) = Returned (status, body)
          /\ (400 <= status < 600)%Z)
    \/ (exists status body e,
          requests_get klines_url (upper s, i, n) = Returned (status, body)
          /\ json_loads body = Raised e)
    \/ (exists status body payload e,
          requests_get klines_url (upper s, i, n) = Returned (status, body)
          /\ json_loads body = Returned payload
          /\ (rows <- iter payload ;; format_data rows) = Raised e)))
  \/ (exists status body payload rows cs,
        requests_get klines_url (upper s, i, n) = Returned (status, body)
        /\ ~ (400 <= status < 600)%Z
        /\ json_loads body = Returned payload
        /\ iter payload = Returned rows
        /\ Forall2 (fun r c => format_candle r = Returned c) rows cs
        /\ fetch_klines s i n = Returned cs).
Proof.
  unfold fetch_klines, fetch_klines_try.
  destruct (requests_get klines_url (upper s, i, n)) as [[status body]|e]
    eqn:Hreq; cbn [bind fst snd try_except].
  2:{ left. split; [reflexivity|]. left. eauto. }
  unfold raise_for_status.
  destruct ((400 <=? status)%Z && (status <? 600)%Z) eqn:Hst;
    cbn [bind try_except].
  { left. split; [reflexivity|]. right; left. exists status, body.
    split; [reflexivity|]. apply andb_true_iff in Hst as [H1 H2].
    apply Z.leb_le in H1. apply Z.ltb_lt in H2. lia. }
  assert (Hok : ~ (400 <= status < 600)%Z).
  { intros [H1 H2]. apply Z.leb_le in H1. apply Z.ltb_lt in H2.
    rewrite H1, H2 in Hst. discriminate. }
  destruct (json_loads body) as [payload|e] eqn:Hjs; cbn [bind try_except].
  2:{ left. split; [reflexivity|]. right; right; left.
      exists status, body, e. split; [reflexivity|exact Hjs]. }
  destruct (iter payload) as [rows|e] eqn:Hit; cbn [bind try_except].
  2:{ left. split; [reflexivity|]. right; right; right.
      exists status, body, payload, e. rewrite Hit. repeat split.
      exact Hjs. }
  destruct (format_data rows) as [cs|e] eqn:Hfd; cbn [try_except].
  - right. exists status, body, payload, rows, cs.
    split; [reflexivity|]. split; [exact Hok|]. split; [exact Hjs|].
    split; [exact Hit|]. split; [apply format_data_rows, Hfd|reflexivity].
  - left. split; [reflexivity|]. right; right; right.
    exists status, body, payload, e. rewrite Hit. cbn [bind].
    split; [reflexivity|]. split; [exact Hjs|exact Hfd].
Qed.

End LifecycleFacts.

(** ** Invariants of the runs *)

Section RunFacts.
Context {host : Host}.
Implicit Types (p : ChartPanel float) (c : Candle float) (msg : message).

Lemma run_reachable es : forall p p',
  reachable p -> run p es = Returned p' -> reachable p'.
Proof.
  induction es as [|e es IH]; intros p p' Hp Hrun; cbn in Hrun.
  - injection Hrun as <-. exact Hp.
  - destruct (step p e) as [q|x] eqn:Hs; [|discriminate].
    cbn [bind] in Hrun. apply (IH q); [|exact Hrun].
    exact (reach_step e Hp Hs).
Qed.

(** What [run_fetch] does to the window. *)
Lemma run_fetch_window p p' :
  run_fetch p = Returned p' ->
  exists klines,
    fetch_klines (symbol p) (interval p) (Deque.maxlen (data p))
      = Returned klines /\
    data p' = Deque.extend (data p) klines.
Proof.
  unfold run_fetch.
  destruct (fetch_klines (symbol p) (interval p) (Deque.maxlen (data p)))
    as [klines|e]; [|discriminate].
  cbn [bind]. intros H. exists klines. split; [reflexivity|].
  destruct klines; injection H as <-; reflexivity.
Qed.

(** What a frame does to the window. *)
Lemma on_message_window p from msg p' :
  on_message p from msg = Returned p' ->
  data p' = data p \/
  exists c, is_active p = true /\ parse_kline msg = Returned c /\
            merge (data p) c = Returned (data p').
Proof.
  unfold on_message. destruct (is_active p); cbn [negb].
  - destruct (parse_kline msg) as [c|e]; [|discriminate]. cbn [bind].
    destruct (merge (data p) c) as [d|e] eqn:Hm; [|discriminate].
    cbn [bind]. intros H. injection H as <-. right. exists c.
    split; [reflexivity|]. split; [reflexivity|exact Hm].
  - intros H. injection H as <-. left. reflexivity.
Qed.

Lemma start_websocket_data p w : data (start_websocket p w) = data p.
Proof. unfold start_websocket. destruct (is_active p); reflexivity. Qed.

Lemma stop_data p : data (stop p) = data p.
Proof. unfold stop. destruct (ws p); reflexivity. Qed.

Lemma step_bound p e p' :
  step p e = Returned p' ->
  Deque.maxlen (data p) = 60 /\ Deque.wf (data p) ->
  Deque.maxlen (data p') = 60 /\ Deque.wf (data p').
Proof.
  intros Hs [Hn Hwf]. destruct e as [|w| |w msg]; cbn [step] in Hs.
  - destruct (run_fetch_window _ Hs) as (klines & _ & ->).
    rewrite extend_maxlen. split; [exact Hn|apply extend_wf, Hwf].
  - injection Hs as <-. rewrite start_websocket_data. auto.
  - injection Hs as <-. rewrite stop_data. auto.
  - destruct (on_message_window _ _ _ Hs) as [->|(c & _ & _ & Hm)]; [auto|].
    destruct (@merge_wf _ _ _ _ Hm Hwf) as [E W]. rewrite E. auto.
Qed.

Lemma reachable_bound p :
  reachable p -> Deque.maxlen (data p) = 60 /\ Deque.wf (data p).
Proof.
  induction 1 as [s i|p e p' _ IH Hs].
  - split; [reflexivity|]. unfold Deque.wf, Deque.len. cbn. lia.
  - exact (step_bound _ _ Hs IH).
Qed.

(** C3, as the code has it. The window of a panel never holds more than 60
    candles. When it holds 60, a frame whose candle is appended makes the
    candle at the front leave, that one only, and the window holds 60 again.
    The candle at the front is the one that entered first; it is older by
    open time than the others when the open times of the window ascend. *)
Theorem window_bounded_front_evicted p :
  reachable p ->
  Deque.len (data p) <= 60 /\
  (Deque.len (data p) = 60 -> is_active p = true ->
   forall from msg c,
     parse_kline msg = Returned c ->
     (forall last, Deque.getitem_last (data p) = Returned last ->
                   py_eq (open_time c) (open_time last) = false) ->
     exists front rest p',
       window p = front :: rest /\
       on_message p from msg = Returned p' /\
       window p' = rest ++ [c] /\
       Deque.len (data p') = 60 /\
       (ascending (times (window p)) = true ->
        forall x, In x rest ->
                  int_lt (open_time front) (open_time x) = true)).
Proof.
  intros Hr. destruct (reachable_bound Hr) as [Hn Hwf].
  split; [unfold Deque.wf in Hwf; lia|].
  intros Hfull Ha from msg c Hc Hne.
  unfold window, Deque.len in *.
  destruct (Deque.items (data p)) as [|front rest] eqn:Ei;
    [cbn in Hfull; lia|].
  exists front, rest,
    (master_after (set_data p (Deque.append (data p) c)) 0 draw_chart).
  assert (Hitems : Deque.items (Deque.append (data p) c) = rest ++ [c]).
  { rewrite append_items_full by (unfold Deque.len; rewrite Ei; lia).
    rewrite Ei. reflexivity. }
  split; [reflexivity|]. split.
  { erewrite on_message_active by eassumption.
    rewrite (@merge_other_time _ _ _ Hne). reflexivity. }
  cbn [data master_after set_data]. rewrite Hitems.
  split; [reflexivity|]. split.
  { rewrite length_app. cbn in Hfull |- *. lia. }
  intros Hasc x Hx.
  apply (@ascending_head float (open_time front) (times rest));
    [exact Hasc|].
  apply in_map, Hx.
Qed.

Lemma run_in_order es : forall p p',
  reachable_in_order p -> all_in_order p es -> run p es = Returned p' ->
  reachable_in_order p'.
Proof.
  induction es as [|e es IH]; intros p p' Hp Hall Hrun; cbn in Hrun.
  - injection Hrun as <-. exact Hp.
  - destruct Hall as [Hin Hall].
    destruct (step p e) as [q|x] eqn:Hs; [|discriminate].
    cbn [bind] in Hrun. apply (IH q); [|exact Hall|exact Hrun].
    exact (rio_step e Hp Hin Hs).
Qed.

(** A step that is in order keeps the open times ascending. *)
Lemma step_in_order_ascending p e p' :
  ascending (times (window p)) = true -> in_order p e ->
  step p e = Returned p' ->
  ascending (times (window p')) = true.
Proof.
  unfold window. intros Hasc Hin Hs.
  destruct e as [|w| |w msg]; cbn [step in_order] in Hs, Hin.
  - destruct (run_fetch_window _ Hs) as (klines & Hf & ->).
    specialize (Hin _ Hf). unfold window in Hin.
    destruct (extend_suffix klines (data p)) as [pre Hpre].
    rewrite Hpre, times_app in Hin. exact (ascending_suffix _ _ Hin).
  - injection Hs as <-. rewrite start_websocket_data. exact Hasc.
  - injection Hs as <-. rewrite stop_data. exact Hasc.
  - destruct (on_message_window _ _ _ Hs) as [->|(c & _ & Hc & Hm)];
      [exact Hasc|].
    destruct (merge_cases (data p) c) as [(last & Hl & Ht & H)|[Hne H]];
      rewrite H in Hm; injection Hm as <-.
    + cbn [Deque.items].
      specialize (Hin _ _ Hc Hl).
      apply int_le_spec in Hin as (m & n & Tl & Tc & _).
      rewrite (py_eq_times _ _ Tc Tl) in Ht. apply Z.eqb_eq in Ht.
      apply getitem_last_spec in Hl.
      rewrite (times_replace_last _ _ Hl) by congruence. exact Hasc.
    + destruct (append_suffix (data p) c) as [pre Hpre].
      apply (ascending_suffix (times pre)). rewrite <- times_app, <- Hpre.
      rewrite times_app. apply ascending_snoc; [exact Hasc|].
      intros y Hy. rewrite times_last in Hy.
      destruct (Deque.last_opt (Deque.items (data p))) as [last|] eqn:El;
        [|discriminate].
      cbn in Hy. injection Hy as <-.
      apply getitem_last_spec in El.
      specialize (Hin _ _ Hc El). specialize (Hne _ El).
      apply int_le_spec in Hin as (m & n & Tl & Tc & Hle).
      rewrite (py_eq_times _ _ Tc Tl) in Hne. apply Z.eqb_neq in Hne.
      apply int_lt_spec. exists m, n. repeat split; [exact Tl|exact Tc|lia].
Qed.

(** C2, as the code has it. In every state that the panel reaches by events
    in order (a snapshot that ascends strictly by open time, frames none of
    which is older than the last candle), the open times of adjacent candles
    of the window increase strictly. *)
Theorem in_order_window_ascending p :
  reachable_in_order p -> ascending (times (window p)) = true.
Proof.
  induction 1 as [s i|p e p' _ IH Hin Hs]; [reflexivity|].
  eapply step_in_order_ascending; eassumption.
Qed.

End RunFacts.

(** * The properties at work

    The snapshots, frames and panels are those of [Demo]. *)

Section Examples.
Import Demo.
Open Scope Z_scope.

(** The window 100, 200, 300 takes two frames for 300. *)
Lemma same_open_time_replaces_last_witness :
  exists p1 p2,
    @on_message offline (panel [100; 200; 300]) 1%nat (frame 300 7)
      = Returned p1 /\
    times (window p1) = ints [100; 200; 300] /\
    @on_message offline p1 1%nat (frame 300 9) = Returned p2 /\
    Deque.len (data p2) = 3%nat /\
    Deque.getitem_last (data p2) = Returned (candle 300 9).
Proof.
  destruct (@same_open_time_replaces_last offline
              (panel [100; 200; 300]) 1%nat (frame 300 7) (frame 300 9)
              (candle 300 7) (candle 300 9) (candle 300 1) 300
              eq_refl eq_refl eq_refl eq_refl eq_refl eq_refl eq_refl)
    as (p1 & p2 & H1 & W1 & _ & H2 & _ & L2 & G2).
  exists p1, p2. split; [exact H1|]. split; [rewrite W1; reflexivity|].
  split; [exact H2|]. split; [exact L2|exact G2].
Defined.

(** C1 fails on the code: the window 100, 200, 300 takes the frame for 250
    as its fourth candle. *)
Lemma stale_candle_not_discarded :
  Deque.getitem_last (data (panel [100; 200; 300]))
    = Returned (candle 300 1) /\
  @parse_kline offline (frame 250 1) = Returned (candle 250 1) /\
  250 < 300 /\
  exists p',
    @on_message offline (panel [100; 200; 300]) 1%nat (frame 250 1)
      = Returned p' /\
    times (window p') = ints [100; 200; 300; 250] /\
    Deque.len (data p') = 4%nat /\
    window p' <> window (panel [100; 200; 300]).
Proof.
  split; [reflexivity|]. split; [reflexivity|]. split; [reflexivity|].
  eexists. split; [reflexivity|]. split; [reflexivity|].
  split; [reflexivity|]. discriminate.
Qed.

Lemma stale_candle_is_appended_witness :
  exists p',
    @on_message offline (panel [100; 200; 300]) 1%nat (frame 250 1)
      = Returned p' /\
    data p' = Deque.append (data (panel [100; 200; 300])) (candle 250 1) /\
    window p' <> window (panel [100; 200; 300]).
Proof.
  apply (@stale_candle_is_appended offline (panel [100; 200; 300]) 1%nat
           (frame 250 1) (candle 250 1) (candle 300 1) 250 300);
    reflexivity.
Defined.

(** C7 fails on the code: the frame for 250, older than the last candle,
    schedules a redraw. *)
Lemma stale_candle_schedules_draw :
  Deque.getitem_last (data (panel [100; 200; 300]))
    = Returned (candle 300 1) /\
  250 < 300 /\
  after_calls (panel [100; 200; 300]) = [] /\
  exists p',
    @on_message offline (panel [100; 200; 300]) 1%nat (frame 250 1)
      = Returned p' /\
    after_calls p' = [(0%nat, draw_chart)].
Proof.
  split; [reflexivity|]. split; [reflexivity|]. split; [reflexivity|].
  eexists. split; reflexivity.
Qed.

Lemma active_frame_schedules_one_draw_witness :
  exists p',
    @on_message offline (panel [100; 200; 300]) 1%nat (frame 400 1)
      = Returned p' /\
    after_calls p' = after_calls (panel [100; 200; 300])
                       ++ [(0%nat, draw_chart)].
Proof.
  apply (@active_frame_schedules_one_draw offline (panel [100; 200; 300])
           1%nat (frame 400 1) (candle 400 1));
    reflexivity.
Defined.

(** In the window 100, 200, 300 the candle of 200 stays where it is. *)
Lemma merge_keeps_middle_witness :
  (3 <= Deque.len (data (panel [100; 200; 300]%Z)))%nat /\
  exists d',
    @merge offline (data (panel [100; 200; 300])) (candle 400 1)
      = Returned d' /\
    In (candle 200 1) (Deque.items d').
Proof.
  split; [cbn; lia|].
  destruct (@merge_keeps_middle offline (data (panel [100; 200; 300]))
              (candle 400 1))
    as (first & last & d' & _ & _ & Hm & _); [cbn; lia|].
  exists d'. split; [exact Hm|].
  vm_compute in Hm. injection Hm as <-. cbn. auto.
Defined.

(** C2 fails on the code: after the snapshot 100, 200, 300 and the frame for
    250 the window is 100, 200, 300, 250. *)
Lemma reachable_window_not_ascending :
  @reachable (host (Returned (200, JArr (map row [100; 200; 300]))))
    disordered /\
  times (window disordered) = ints [100; 200; 300; 250] /\
  ascending (times (window disordered)) = false.
Proof.
  split; [|split; vm_compute; reflexivity].
  apply (@run_reachable _ (feed _ [250]) (init "btcusdt" "1m"));
    [apply reach_init|vm_compute; reflexivity].
Qed.

(** The snapshot 100, 200, 300 and the frames for 300 and 400, in order. *)
Lemma in_order_window_ascending_witness :
  @reachable_in_order (host (Returned (200, JArr (map row [100; 200; 300]))))
    ordered /\
  times (window ordered) = ints [100; 200; 300; 400] /\
  ascending (times (window ordered)) = true.
Proof.
  assert (R : @reachable_in_order
                (host (Returned (200, JArr (map row [100; 200; 300]))))
                ordered).
  { apply (@run_in_order _ (feed _ [300; 400]) (init "btcusdt" "1m"));
      [apply rio_init| |vm_compute; reflexivity].
    cbn [feed map all_in_order]. split.
    { intros klines H. vm_compute in H. injection H as <-.
      vm_compute; reflexivity. }
    split; [exact I|]. split.
    { intros c last Hc Hl. vm_compute in Hc, Hl.
      injection Hc as <-. injection Hl as <-. cbn. lia. }
    split; [|exact I].
    intros c last Hc Hl. vm_compute in Hc, Hl.
    injection Hc as <-. injection Hl as <-. cbn. lia. }
  split; [exact R|]. split; [vm_compute; reflexivity|].
  exact (in_order_window_ascending R).
Defined.

Lemma full_reachable :
  @reachable (host (Returned (200, JArr (map row [1000])))) full.
Proof.
  apply (@run_reachable _ (feed _ (count_up 1 59)) (init "btcusdt" "1m"));
    [apply reach_init|vm_compute; reflexivity].
Qed.

(** C3 fails on the code: the full window 1000, 1, 2, ..., 59 takes the
    frame for 60 and loses the candle of 1000, the one at the front, while
    the candle of 1 is the oldest by open time. *)
Lemma evicted_candle_not_oldest :
  @reachable (host (Returned (200, JArr (map row [1000])))) full /\
  Deque.len (data full) = 60%nat /\
  times (window full) = ints (1000 :: count_up 1 59) /\
  (exists p',
     @on_message (host (Returned (200, JArr (map row [1000]))))
       full 1%nat (frame 60 1) = Returned p' /\
     times (window p') = ints (count_up 1 60)) /\
  In (JInt 1) (times (window full)) /\ 1 < 1000.
Proof.
  split; [exact full_reachable|]. split; [vm_compute; reflexivity|].
  split; [vm_compute; reflexivity|]. split.
  - eexists. split; vm_compute; reflexivity.
  - split; [|reflexivity]. vm_compute. right. left. reflexivity.
Qed.

Lemma window_bounded_front_evicted_witness :
  (Deque.len (data full) <= 60)%nat /\
  exists front rest p',
    window full = front :: rest /\
    @on_message (host (Returned (200, JArr (map row [1000]))))
      full 1%nat (frame 60 1) = Returned p' /\
    window p' = rest ++ [candle 60 1] /\
    Deque.len (data p') = 60%nat.
Proof.
  destruct (@window_bounded_front_evicted
              (host (Returned (200, JArr (map row [1000]))))
              full full_reachable) as [B E].
  split; [exact B|].
  assert (Hlen : Deque.len (data full) = 60%nat) by (vm_compute; reflexivity).
  assert (Hact : is_active full = true) by (vm_compute; reflexivity).
  assert (Hc : @parse_kline (host (Returned (200, JArr (map row [1000]))))
                 (frame 60 1) = Returned (candle 60 1))
    by (vm_compute; reflexivity).
  destruct (E Hlen Hact 1%nat (frame 60 1) (candle 60 1) Hc)
    as (front & rest & p' & Hw & Hm & Hw' & Hl & _).
  { intros last H. vm_compute in H. injection H as <-. cbn. lia. }
  exists front, rest, p'. auto.
Defined.


(** C8 fails on the code: a request that times out and an answer with status
    500 both give the empty list, not a failure, and a payload with the rows
    200, 100 is returned in that order. *)
Lemma fetch_has_no_failure :
  @requests_get offline klines_url ("BTCUSDT"%string, "1m"%string, 60%nat)
    = Raised Timeout /\
  @fetch_klines offline "btcusdt" "1m" 60 = Returned [] /\
  @fetch_klines (host (Returned (500, JNull))) "btcusdt" "1m" 60
    = Returned [] /\
  @fetch_klines (host (Returned (200, JArr (map row [200; 100]))))
    "btcusdt" "1m" 60 = Returned [candle 200 1; candle 100 1] /\
  ascending (times [candle 200 1; candle 100 1]) = false.
Proof. repeat split; vm_compute; reflexivity. Qed.

(** An answer with no row. *)
Lemma empty_snapshot_leaves_panel_idle_witness :
  @fetch_klines (host (Returned (200, JArr []))) (upper "btcusdt") "1m" 60
    = Returned [] /\
  @run_fetch (host (Returned (200, JArr [])))
     (@init (host (Returned (200, JArr []))) "btcusdt" "1m")
    = Returned (@init (host (Returned (200, JArr []))) "btcusdt" "1m") /\
  window (@init (host (Returned (200, JArr []))) "btcusdt" "1m") = [] /\
  is_active (@init (host (Returned (200, JArr []))) "btcusdt" "1m") = false.
Proof.
  assert (Hf : @fetch_klines (host (Returned (200, JArr [])))
                 (upper "btcusdt") "1m" 60 = Returned [])
    by (vm_compute; reflexivity).
  split; [exact Hf|].
  destruct (@empty_snapshot_leaves_panel_idle
              (host (Returned (200, JArr []))) "btcusdt" "1m" [] Hf)
    as (p' & Hr & He & _).
  destruct (He eq_refl) as (-> & Hw & Ha & _).
  split; [exact Hr|]. split; [exact Hw|exact Ha].
Defined.

End Examples.

(** * Further properties of the chart panel *)

(** ** What a deque keeps *)

Section DequeKeeps.
Context {A : Type}.
Implicit Types (d : Deque.t A) (l xs : list A) (x : A).

Lemma append_skipn d x :
  Deque.wf d ->
  Deque.items (Deque.append d x) =
    skipn (List.length (Deque.items d ++ [x]) - Deque.maxlen d)
          (Deque.items d ++ [x]).
Proof.
  unfold Deque.wf. intros Hwf.
  destruct (Nat.eq_dec (Deque.len d) (Deque.maxlen d)) as [E|E].
  - rewrite append_items_full by lia. unfold Deque.len in E.
    rewrite length_app. cbn [List.length].
    replace (List.length (Deque.items d) + 1 - Deque.maxlen d) with 1 by lia.
    destruct (Deque.items d ++ [x]); reflexivity.
  - rewrite append_items_room by lia. unfold Deque.len in *.
    rewrite length_app. cbn [List.length].
    replace (List.length (Deque.items d) + 1 - Deque.maxlen d) with 0 by lia.
    reflexivity.
Qed.

(** [extend] keeps the last [maxlen] elements of what it was given. *)
Lemma extend_skipn xs : forall d,
  Deque.wf d ->
  Deque.items (Deque.extend d xs) =
    skipn (List.length (Deque.items d ++ xs) - Deque.maxlen d)
          (Deque.items d ++ xs).
Proof.
  induction xs as [|x xs IH]; intros d Hwf.
  - cbn. rewrite app_nil_r. unfold Deque.wf, Deque.len in Hwf.
    replace (List.length (Deque.items d) - Deque.maxlen d) with 0 by lia.
    reflexivity.
  - change (Deque.extend d (x :: xs))
      with (Deque.extend (Deque.append d x) xs).
    rewrite (IH _ (append_wf x Hwf)), append_maxlen, append_skipn by exact Hwf.
    set (L := Deque.items d ++ [x]).
    replace (Deque.items d ++ x :: xs) with (L ++ xs)
      by (unfold L; rewrite <- app_assoc; reflexivity).
    set (n := List.length L - Deque.maxlen d).
    assert (Hs : skipn n L ++ xs = skipn n (L ++ xs)).
    { rewrite skipn_app.
      replace (n - List.length L) with 0 by (unfold n; lia).
      reflexivity. }
    rewrite Hs, skipn_skipn. f_equal.
    rewrite length_skipn, !length_app. unfold n. lia.
Qed.

Lemma extend_len_ge xs : forall d,
  Deque.wf d -> Deque.len d <= Deque.len (Deque.extend d xs).
Proof.
  induction xs as [|x xs IH]; intros d Hwf; [apply Nat.le_refl|].
  change (Deque.extend d (x :: xs))
    with (Deque.extend (Deque.append d x) xs).
  etransitivity; [|apply IH, append_wf, Hwf].
  rewrite append_len by exact Hwf. unfold Deque.wf in Hwf. lia.
Qed.

End DequeKeeps.

(** ** The window along a run *)

Section WindowFacts.
Context {host : Host}.
Implicit Types (p : ChartPanel float) (c : Candle float) (msg : message).

(** X1. The snapshot goes behind the candles already in the window, and of
    the whole the last 60 are kept: a snapshot of more than 60 rows loses
    its oldest rows. *)
Theorem snapshot_keeps_last_60 p p' :
  reachable p -> run_fetch p = Returned p' ->
  exists klines,
    fetch_klines (symbol p) (interval p) 60 = Returned klines /\
    window p' =
      skipn (List.length (window p ++ klines) - 60) (window p ++ klines).
Proof.
  intros Hr Hf. destruct (reachable_bound Hr) as [Hn Hwf].
  destruct (run_fetch_window _ Hf) as (klines & Hk & Hd).
  exists klines. rewrite Hn in Hk. split; [exact Hk|].
  unfold window. rewrite Hd, (extend_skipn klines Hwf), Hn. reflexivity.
Qed.

Lemma merge_len_ge (d d' : Deque.t (Candle float)) c :
  Deque.wf d -> merge d c = Returned d' -> Deque.len d <= Deque.len d'.
Proof.
  intros Hwf Hm.
  destruct (merge_cases d c) as [(last & Hl & _ & H)|[_ H]];
    rewrite H in Hm; injection Hm as <-.
  - unfold Deque.len. cbn [Deque.items].
    rewrite removelast_snoc_length; [apply Nat.le_refl|].
    apply getitem_last_spec in Hl. intros E. rewrite E in Hl. discriminate.
  - rewrite append_len by exact Hwf. unfold Deque.wf in Hwf. lia.
Qed.

(** X2. No event makes the window shorter: not a frame, not a snapshot, not
    a stop or a start. A window that has reached 60 candles stays at 60. *)
Theorem window_never_shrinks p e p' :
  reachable p -> step p e = Returned p' ->
  Deque.len (data p) <= Deque.len (data p').
Proof.
  intros Hr Hs. destruct (reachable_bound Hr) as [_ Hwf].
  destruct e as [|w| |w msg]; cbn [step] in Hs.
  - destruct (run_fetch_window _ Hs) as (klines & _ & ->).
    apply extend_len_ge, Hwf.
  - injection Hs as <-. rewrite start_websocket_data. apply Nat.le_refl.
  - injection Hs as <-. rewrite stop_data. apply Nat.le_refl.
  - destruct (on_message_window _ _ _ Hs) as [->|(c & _ & _ & Hm)];
      [apply Nat.le_refl|].
    eapply merge_len_ge; eassumption.
Qed.

Lemma start_websocket_cases p (w : conn) :
  (is_active p = true /\ start_websocket p w = p) \/
  (is_active p = false /\
   start_websocket p w =
     mkPanel (symbol p) (interval p) true (Some w) (data p)
             (after_calls p) (closed p)).
Proof.
  unfold start_websocket. destruct (is_active p); [left|right]; auto.
Qed.

Lemma run_fetch_cases p p' :
  run_fetch p = Returned p' ->
  p' = p \/
  exists k ks,
    p' = master_after
           (master_after (set_data p (Deque.extend (data p) (k :: ks)))
                         0 draw_chart)
           100 start_websocket_cb.
Proof.
  unfold run_fetch.
  destruct (fetch_klines (symbol p) (interval p) (Deque.maxlen (data p)))
    as [[|k ks]|x]; cbn [bind]; intros H.
  - injection H as <-. left. reflexivity.
  - injection H as <-. right. exists k, ks. reflexivity.
  - discriminate.
Qed.

Lemma on_message_cases p from msg p' :
  on_message p from msg = Returned p' ->
  p' = p \/
  exists c d,
    is_active p = true /\ parse_kline msg = Returned c /\
    merge (data p) c = Returned d /\
    p' = master_after (set_data p d) 0 draw_chart.
Proof.
  unfold on_message. destruct (is_active p); cbn [negb].
  - destruct (parse_kline msg) as [c|e]; [|discriminate]. cbn [bind].
    destruct (merge (data p) c) as [d|e] eqn:Hm; [|discriminate].
    cbn [bind]. intros H. injection H as <-. right. exists c, d. auto.
  - intros H. injection H as <-. left. reflexivity.
Qed.

(** X3. In every state of a panel, it is active exactly when it holds a
    connection. *)
Theorem active_iff_connected p :
  reachable p -> (is_active p = true <-> exists w, ws p = Some w).
Proof.
  induction 1 as [s i|p e p' _ IH Hs].
  - cbn. split; [discriminate|intros [w Hw]; discriminate].
  - destruct e as [|w| |w msg]; cbn [step] in Hs.
    + destruct (run_fetch_cases _ Hs) as [->|(k & ks & ->)]; exact IH.
    + injection Hs as <-.
      destruct (start_websocket_cases p w) as [[_ ->]|[_ ->]]; [exact IH|].
      cbn. split; [eauto|reflexivity].
    + injection Hs as <-. unfold stop.
      destruct (ws p); cbn;
        (split; [discriminate|intros [w Hw]; discriminate]).
    + destruct (on_message_cases _ _ _ Hs)
        as [->|(c & d & _ & _ & _ & ->)]; exact IH.
Qed.

Lemma merge_nonempty (d d' : Deque.t (Candle float)) c :
  0 < Deque.maxlen d -> Deque.wf d -> merge d c = Returned d' ->
  Deque.getitem_last d' = Returned c.
Proof.
  intros Hpos Hwf Hm. apply getitem_last_spec.
  destruct (merge_cases d c) as [(last & _ & _ & H)|[_ H]];
    rewrite H in Hm; injection Hm as <-.
  - cbn [Deque.items]. apply last_opt_app.
  - apply append_last; assumption.
Qed.

(** X5. On an active panel the candle of a frame that decodes is the last
    candle of the window when the call returns, whatever its open time. *)
Theorem latest_frame_is_last_candle p from msg c :
  reachable p -> is_active p = true -> parse_kline msg = Returned c ->
  exists p',
    on_message p from msg = Returned p' /\
    Deque.getitem_last (data p') = Returned c.
Proof.
  intros Hr Ha Hc. destruct (reachable_bound Hr) as [Hn Hwf].
  destruct (merge_returns (data p) c) as [d Hd].
  exists (master_after (set_data p d) 0 draw_chart).
  erewrite on_message_active by eassumption. rewrite Hd.
  split; [reflexivity|]. cbn [data master_after set_data].
  eapply merge_nonempty; [rewrite Hn; lia|exact Hwf|exact Hd].
Qed.

Lemma reachable_by_schedule_reachable p :
  reachable_by_schedule p -> reachable p.
Proof.
  induction 1 as [s i|p e p' _ IH _ Hs]; [apply reach_init|].
  exact (reach_step e IH Hs).
Qed.

(** X4. When [start_websocket] runs only as the callback that the snapshot
    schedules, an active panel has a candle in its window: no frame is
    merged into an empty window, and a redraw of an active panel gets past
    the guard of [draw_chart] and draws. *)
Theorem active_panel_has_candles p :
  reachable_by_schedule p -> is_active p = true ->
  window p <> [] /\
  forall float_ge, draw_chart_plot float_ge p <> None.
Proof.
  intros Hr.
  assert (J : (In (100, start_websocket_cb) (after_calls p) ->
               window p <> []) /\
              (is_active p = true -> window p <> [])).
  {   induction Hr as [s i|p e p' Hr IH Hf Hs].
      - cbn. split; [intros []|discriminate].
      - destruct (reachable_bound (reachable_by_schedule_reachable Hr))
          as [Hn Hwf].
        destruct IH as [IHs IHa].
        destruct e as [|w| |w msg]; cbn [step fires] in Hs, Hf.
        + destruct (run_fetch_cases _ Hs) as [->|(k & ks & ->)];
            [split; assumption|].
          assert (Hne : Deque.items (Deque.extend (data p) (k :: ks)) <> []).
          { apply extend_nonempty; [rewrite Hn; lia|exact Hwf|discriminate]. }
          split; intros _; exact Hne.
        + injection Hs as <-.
          destruct (start_websocket_cases p w) as [[_ ->]|[_ ->]];
            [split; assumption|].
          split; intros _; apply IHs, Hf.
        + injection Hs as <-. unfold window in *.
          rewrite stop_data, stop_inactive.
          split; [|discriminate]. intros Hin. apply IHs.
          unfold stop in Hin. destruct (ws p); exact Hin.
        + destruct (on_message_cases _ _ _ Hs)
            as [->|(c & d & _ & _ & Hm & ->)]; [split; assumption|].
          assert (Hl : Deque.getitem_last d = Returned c).
          { eapply merge_nonempty; [rewrite Hn; lia|exact Hwf|exact Hm]. }
          assert (Hne : Deque.items d <> []).
          { apply getitem_last_spec in Hl. intros E. rewrite E in Hl.
            discriminate. }
          split; intros _; exact Hne. }
  intros Ha. destruct J as [_ J]. specialize (J Ha).
  split; [exact J|]. intros float_ge.
  unfold draw_chart_plot, Deque.truthy, Deque.len. rewrite Ha.
  unfold window in J. destruct (Deque.items (data p)); [congruence|].
  cbn. discriminate.
Qed.

(** X6. On an active panel a frame that is a JSON object without the key k,
    such as the answer to a subscription, raises KeyError: [on_message] has
    no handler of its own. The same frame delivered to a stopped panel is
    passed over. *)
Theorem frame_without_kline_raises p from msg kv :
  is_active p = true ->
  json_loads msg = Returned (JObj kv) ->
  lookup "k" kv = None ->
  on_message p from msg = Raised KeyError /\
  on_message (stop p) from msg = Returned (stop p).
Proof.
  intros Ha Hj Hk. split.
  - unfold on_message, parse_kline. rewrite Ha, Hj. cbn [negb bind].
    unfold getitem_key. rewrite Hk. reflexivity.
  - apply on_message_inactive, stop_inactive.
Qed.

End WindowFacts.

(** ** The snapshot and the frames, decoded *)

Section DecodeFacts.
Context {host : Host}.

Lemma format_data_bad_row rows : forall r e,
  In r rows -> format_candle r = Raised e ->
  exists e', format_data rows = Raised e'.
Proof.
  induction rows as [|r0 rows IH]; intros r e Hin Hr; [destruct Hin|].
  cbn [format_data].
  destruct (format_candle r0) as [c0|e0] eqn:H0; cbn [bind]; [|eauto].
  destruct Hin as [->|Hin]; [congruence|].
  destruct (IH _ _ Hin Hr) as [e' ->]. cbn [bind]. eauto.
Qed.

(** X7. One row of the payload that cannot be formatted, too short or with a
    field that is no number, costs the whole snapshot: [fetch_klines]
    returns the empty list, whatever the other rows are. *)
Theorem one_bad_row_empties_snapshot
  (s i : string) (n : nat) status body payload rows r e :
  requests_get klines_url (upper s, i, n) = Returned (status, body) ->
  json_loads body = Returned payload ->
  iter payload = Returned rows ->
  In r rows -> format_candle r = Raised e ->
  fetch_klines s i n = Returned [].
Proof.
  intros Hreq Hj Hit Hin Hr.
  unfold fetch_klines, fetch_klines_try. rewrite Hreq. cbn [bind fst snd].
  destruct (raise_for_status status); cbn [bind]; [|reflexivity].
  rewrite Hj. cbn [bind]. rewrite Hit. cbn [bind].
  destruct (format_data_bad_row _ _ Hin Hr) as [e' ->]. reflexivity.
Qed.

(** X8. A frame of the live feed and a row of the snapshot that carry the
    same six values decode alike, to the same candle or to the same
    exception; what the row has after its sixth column is not read. *)
Theorem row_and_frame_agree msg top kv jt jo jh jl jc jv extra :
  json_loads msg = Returned (JObj top) ->
  lookup "k" top = Some (JObj kv) ->
  lookup "t" kv = Some jt -> lookup "o" kv = Some jo ->
  lookup "h" kv = Some jh -> lookup "l" kv = Some jl ->
  lookup "c" kv = Some jc -> lookup "v" kv = Some jv ->
  parse_kline msg =
    format_candle (JArr (jt :: jo :: jh :: jl :: jc :: jv :: extra)).
Proof.
  intros Hj Hk Ht Ho Hh Hl Hc Hv.
  unfold parse_kline, format_candle, getitem_key, getitem_idx.
  rewrite Hj. cbn [bind]. rewrite Hk. cbn [bind nth_error].
  rewrite Ht, Ho, Hh, Hl, Hc, Hv. reflexivity.
Qed.

End DecodeFacts.

(** ** The redraw *)

Section SliceFacts.
Context {A : Type}.

Lemma every_length (step : nat) (l : list A) : forall k,
  0 < step -> k < step ->
  List.length (every k step l)
    = (List.length l + (step - 1 - k)) / step.
Proof.
  induction l as [|x l IH]; intros k Hs Hk.
  - cbn [every List.length]. symmetry. apply Nat.div_small. lia.
  - destruct k as [|k]; cbn [every List.length].
    + rewrite IH by lia.
      replace (List.length l + (step - 1 - (step - 1)))
        with (List.length l) by lia.
      replace (S (List.length l) + (step - 1 - 0))
        with (List.length l + 1 * step) by lia.
      rewrite Nat.div_add by lia. lia.
    + rewrite IH by lia. f_equal. lia.
Qed.

Lemma every_in (step : nat) (l : list A) : forall k x,
  In x (every k step l) -> In x l.
Proof.
  induction l as [|y l IH]; intros k x H; [destruct H|].
  destruct k as [|k]; cbn [every] in H.
  - destruct H as [->|H]; [left; reflexivity|right; eapply IH, H].
  - right. eapply IH, H.
Qed.

Lemma every_map (B : Type) (f : A -> B) (step : nat) (l : list A) :
  forall k, every k step (map f l) = map f (every k step l).
Proof.
  induction l as [|x l IH]; intros k; [reflexivity|].
  destruct k as [|k]; cbn [every map]; rewrite IH; reflexivity.
Qed.

Lemma map_nth_seq (d : A) (l : list A) : forall a,
  map (fun i => nth (i - a) l d) (seq a (List.length l)) = l.
Proof.
  induction l as [|x l IH]; intros a; [reflexivity|].
  cbn [List.length seq map]. rewrite Nat.sub_diag. cbn [nth]. f_equal.
  rewrite <- (IH (S a)) at 2. apply map_ext_in.
  intros i Hi. apply in_seq in Hi.
  replace (i - a) with (S (i - S a)) by lia. reflexivity.
Qed.

End SliceFacts.

Section DrawFacts.
Context {host : Host}.
Variable float_ge : float -> float -> bool.
Implicit Types (p : ChartPanel float).

(** X9. The redraw that the snapshot schedules finds the panel as the
    fetching thread left it, not active, and draws nothing; so does a redraw
    that finds the panel as stop() left it. *)
Theorem first_redraw_draws_nothing (s i : string) p' p :
  run_fetch (init s i) = Returned p' ->
  draw_chart_plot float_ge p' = None /\
  draw_chart_plot float_ge (stop p) = None.
Proof.
  intros Hf. split.
  - unfold draw_chart_plot.
    destruct (run_fetch_cases _ Hf) as [->|(k & ks & ->)]; reflexivity.
  - unfold draw_chart_plot. rewrite stop_inactive. reflexivity.
Qed.

(** X10. A redraw puts a label at no more than 19 places; it has one label
    for each tick, made from the open time of the candle at the index of the
    tick, and every tick is the index of a candle of the window. *)
Theorem tick_labels_match_ticks p plot :
  draw_chart_plot float_ge p = Some plot ->
  List.length (x_ticks plot) <= 19 /\
  List.length (x_label_times plot) = List.length (x_ticks plot) /\
  x_label_times plot =
    map (fun i => nth i (times (window p)) JNull) (x_ticks plot) /\
  Forall (fun i => i < List.length (window p)) (x_ticks plot).
Proof.
  unfold draw_chart_plot.
  destruct (negb (is_active p) || negb (Deque.truthy (data p)));
    [discriminate|].
  intros H. cbv zeta in H. unfold slice_step, times in H |- *.
  rewrite !length_map in H.
  remember (List.length (window p)) as n eqn:En.
  remember (Nat.max 1 (n / 10)) as step eqn:Estep.
  injection H as <-. cbn [x_ticks x_label_times].
  assert (Hstep : 0 < step) by lia.
  assert (Hlabels :
            every 0 step (map (@open_time float) (window p)) =
            map (fun i => nth i (map (@open_time float) (window p)) JNull)
                (every 0 step (seq 0 n))).
  { rewrite <- every_map.
    rewrite <- (map_nth_seq JNull (map (@open_time float) (window p)) 0)
      at 1.
    rewrite length_map, <- En. f_equal.
    apply map_ext. intros a. rewrite Nat.sub_0_r. reflexivity. }
  split; [|split; [|split]].
  - rewrite every_length, length_seq by lia.
    apply Nat.lt_succ_r, Nat.Div0.div_lt_upper_bound.
    pose proof (Nat.mul_succ_div_gt n 10) as Hdiv.
    destruct (n / 10) as [|q]; lia.
  - rewrite Hlabels. apply length_map.
  - exact Hlabels.
  - apply Forall_forall. intros i Hi. apply every_in in Hi.
    apply in_seq in Hi. lia.
Qed.

End DrawFacts.

(** * Properties of the tickers and of the dashboard *)

Section TickerFacts.
Context {host : Host} {fmt : Format}.
Implicit Types (k : Ticker.t float).

Lemma ticker_stop_inactive k : Ticker.is_active (Ticker.stop k) = false.
Proof. reflexivity. Qed.

Lemma ticker_stop_stop k : Ticker.stop (Ticker.stop k) = Ticker.stop k.
Proof. reflexivity. Qed.

Lemma ticker_step_inactive k e :
  Ticker.is_active k = false -> Ticker.step k e = Returned k.
Proof.
  intros Ha. destruct e as [w m|a b c]; cbn [Ticker.step].
  - unfold Ticker.on_message. rewrite Ha. reflexivity.
  - unfold Ticker.update_display. rewrite Ha. reflexivity.
Qed.

Lemma ticker_run_inactive es : forall k,
  Ticker.is_active k = false -> Ticker.run k es = Returned k.
Proof.
  induction es as [|e es IH]; intros k Ha; [reflexivity|].
  cbn [Ticker.run]. rewrite ticker_step_inactive by exact Ha. cbn [bind].
  apply IH, Ha.
Qed.


(** A frame or an update changes neither the state of the connection nor
    the placement of the ticker. *)
Lemma ticker_step_keeps k e k' :
  Ticker.step k e = Returned k' ->
  Ticker.is_active k' = Ticker.is_active k /\
  Ticker.ws k' = Ticker.ws k /\
  Ticker.packed k' = Ticker.packed k.
Proof.
  destruct e as [w m|a b c]; cbn [Ticker.step].
  - unfold Ticker.on_message. destruct (Ticker.is_active k) eqn:Ha;
      cbn [negb].
    + destruct (json_loads m) as [j|x]; [|discriminate]. cbn [bind].
      destruct (bind (getitem_key j "c") py_float) as [pr|x];
        [|discriminate]. cbn [bind].
      destruct (bind (getitem_key j "p") py_float) as [ch|x];
        [|discriminate]. cbn [bind].
      destruct (bind (getitem_key j "P") py_float) as [pc|x];
        [|discriminate]. cbn [bind].
      intros H. injection H as <-. cbn. auto.
    + intros H. injection H as <-. auto.
  - intros H. injection H as <-. unfold Ticker.update_display.
    destruct (Ticker.is_active k) eqn:Ha; cbn; auto.
Qed.

End TickerFacts.

Section AppFacts.
Context {host : Host} {fmt : Format}.
Implicit Types (a : App.t float).

Lemma run_deliveries_inactive (frames : list (conn * message)) :
  forall p : ChartPanel float,
    is_active p = false -> run p (map delivery frames) = Returned p.
Proof.
  induction frames as [|f frames IH]; intros p Ha; [reflexivity|].
  cbn [map run]. unfold delivery at 1. cbn [step].
  rewrite on_message_inactive by exact Ha. cbn [bind]. apply IH, Ha.
Qed.

(** X12. In every state of the dashboard before it is closed, the SOL
    ticker is shown, packed and connected together or not at all, and the
    text of its button says what the next press does; the BTC and ETH
    tickers stay active whatever is pressed. *)
Theorem sol_toggle_consistent a :
  App.reachable a ->
  Ticker.is_active (App.sol_ticker a) = App.sol_visible a /\
  Ticker.packed (App.sol_ticker a) = App.sol_visible a /\
  App.sol_btn a =
    (if App.sol_visible a then "Hide SOL/USDT" else "Show SOL/USDT")%string /\
  Ticker.is_active (App.btc_ticker a) = true /\
  Ticker.is_active (App.eth_ticker a) = true.
Proof.
  induction 1 as [w1 w2|a e a' _ IH Hs]; [cbn; auto|].
  destruct IH as (I1 & I2 & I3 & I4 & I5).
  destruct e as [|w|w e|e]; cbn [App.step] in Hs.
  - injection Hs as <-. unfold App.toggle_graph.
    destruct (App.graph_visible a); cbn; auto.
  - injection Hs as <-. unfold App.toggle_sol.
    destruct (App.sol_visible a) eqn:Hv; cbn.
    + auto.
    + unfold Ticker.start, Ticker.pack, Ticker.set_packed. cbn.
      rewrite I1. cbn. auto.
  - destruct (Ticker.step (App.ticker a w) e) as [k|x] eqn:Hk;
      [|discriminate].
    cbn [bind] in Hs. injection Hs as <-.
    destruct (ticker_step_keeps _ _ Hk) as (K1 & _ & K3).
    destruct w; cbn in K1, K3 |- *; rewrite ?K1, ?K3; auto.
  - destruct (chart_step (App.chart_panel a) e) as [q|x];
      [|discriminate].
    cbn [bind] in Hs. injection Hs as <-. cbn. auto.
Qed.


(** X14. Hiding the chart and showing it again leaves the tickers, the
    panel with its connection and its window, and the SOL toggle as they
    were: only the text of the button can differ. Hiding the chart does not
    stop its feed. *)
Theorem toggle_graph_twice a :
  App.chart_panel (App.toggle_graph a) = App.chart_panel a /\
  App.toggle_graph (App.toggle_graph a) =
    App.mk (App.btc_ticker a) (App.eth_ticker a) (App.sol_ticker a)
           (App.chart_panel a)
           (App.graph_visible a) (App.graph_visible a)
           (if App.graph_visible a then "Hide Chart" else "Show Chart")
           (App.sol_visible a) (App.sol_btn a) (App.destroyed a).
Proof.
  unfold App.toggle_graph. destruct (App.graph_visible a); cbn; auto.
Qed.

(** X15. Closing the dashboard stops the three tickers and the chart panel:
    afterwards none of them is active, a ticker passes over every frame and
    every pending update, and the chart panel passes over every frame. A
    second call changes nothing. *)
Theorem on_closing_stops_everything a
  (w : App.which) (es : list Ticker.event) (frames : list (conn * message)) :
  App.destroyed (App.on_closing a) = true /\
  Ticker.run (App.ticker (App.on_closing a) w) es
    = Returned (App.ticker (App.on_closing a) w) /\
  run (App.chart_panel (App.on_closing a)) (map delivery frames)
    = Returned (App.chart_panel (App.on_closing a)) /\
  App.on_closing (App.on_closing a) = App.on_closing a.
Proof.
  split; [reflexivity|]. split.
  { destruct w; cbn; apply ticker_run_inactive, ticker_stop_inactive. }
  split.
  { cbn [App.on_closing App.chart_panel].
    apply run_deliveries_inactive, stop_inactive. }
  unfold App.on_closing. cbn. rewrite stop_stop. reflexivity.
Qed.

End AppFacts.

(** * The further properties at work *)

Section MoreExamples.
Import Demo DemoApp.
Open Scope Z_scope.

Lemma seeded_reachable : @reachable (host (net [100; 200; 300])) seeded.
Proof.
  apply (@run_reachable (host (net [100; 200; 300])) [@ev_run_fetch (host (net [100; 200; 300]))]
           (init "btcusdt" "1m"));
    [apply reach_init|vm_compute; reflexivity].
Qed.

Lemma live_reachable : @reachable (host (net [100; 200; 300])) live.
Proof.
  apply (@run_reachable (host (net [100; 200; 300])) (feed _ [400])
           (init "btcusdt" "1m"));
    [apply reach_init|vm_compute; reflexivity].
Qed.

Lemma live_by_schedule :
  @reachable_by_schedule (host (net [100; 200; 300])) live.
Proof.
  apply (@rbs_step (host (net [100; 200; 300])) started
           (@ev_message (host (net [100; 200; 300]))
              1%nat (frame 400 1)));
    [|exact I|vm_compute; reflexivity].
  apply (@rbs_step (host (net [100; 200; 300])) seeded
           (@ev_start_websocket (host (net [100; 200; 300])) 1%nat));
    [| |vm_compute; reflexivity].
  - apply (@rbs_step (host (net [100; 200; 300]))
             (init "btcusdt" "1m")
             (@ev_run_fetch (host (net [100; 200; 300]))));
      [apply rbs_init|exact I|vm_compute; reflexivity].
  - vm_compute. right. left. reflexivity.
Qed.

(** C6 fails on the code: the snapshot 100, 200, 300 schedules the start,
    stop() runs, the scheduled start runs all the same, and the frame for
    400 that is delivered then is merged. *)
Lemma frame_merged_after_stop :
  @run (host (net [100; 200; 300])) (init "btcusdt" "1m")
     [ev_run_fetch; ev_stop] = Returned halted /\
  is_active halted = false /\
  times (window halted) = ints [100; 200; 300] /\
  In (100%nat, start_websocket_cb) (after_calls halted) /\
  @run (host (net [100; 200; 300])) halted
     [ev_start_websocket 1%nat;
      @ev_message (host (net [100; 200; 300])) 1%nat (frame 400 1)]
    = Returned revived /\
  times (window revived) = ints [100; 200; 300; 400] /\
  @reachable_by_schedule (host (net [100; 200; 300])) revived.
Proof.
  split; [vm_compute; reflexivity|]. split; [vm_compute; reflexivity|].
  split; [vm_compute; reflexivity|].
  assert (Hin : In (100%nat, start_websocket_cb) (after_calls halted))
    by (vm_compute; right; left; reflexivity).
  split; [exact Hin|]. split; [vm_compute; reflexivity|].
  split; [vm_compute; reflexivity|].
  apply (@rbs_step (host (net [100; 200; 300]))
           (after (net := net [100; 200; 300])
                  [ev_run_fetch; ev_stop; ev_start_websocket 1%nat])
           (@ev_message (host (net [100; 200; 300]))
              1%nat (frame 400 1)));
    [|exact I|vm_compute; reflexivity].
  apply (@rbs_step (host (net [100; 200; 300])) halted
           (@ev_start_websocket (host (net [100; 200; 300])) 1%nat));
    [|exact Hin|vm_compute; reflexivity].
  apply (@rbs_step (host (net [100; 200; 300])) seeded
           (@ev_stop (host (net [100; 200; 300]))));
    [|exact I|vm_compute; reflexivity].
  apply (@rbs_step (host (net [100; 200; 300]))
           (init "btcusdt" "1m")
           (@ev_run_fetch (host (net [100; 200; 300]))));
    [apply rbs_init|exact I|vm_compute; reflexivity].
Qed.

(** Of the rows 1 to 61 the window keeps 2 to 61. *)
Lemma snapshot_keeps_last_60_witness :
  times (window snapshot61) = ints (count_up 2 60) /\
  exists klines,
    @fetch_klines (host (net (count_up 1 61))) "BTCUSDT" "1m" 60
      = Returned klines /\
    window snapshot61 = skipn (List.length klines - 60) klines.
Proof.
  split; [vm_compute; reflexivity|].
  apply (@snapshot_keeps_last_60 (host (net (count_up 1 61)))
           (init "btcusdt" "1m") snapshot61);
    [apply reach_init|vm_compute; reflexivity].
Defined.

Lemma window_never_shrinks_witness :
  (Deque.len (data (@init (host (net [100; 200; 300]%Z)) "btcusdt" "1m"))
   <= Deque.len (data seeded))%nat.
Proof.
  apply (@window_never_shrinks (host (net [100; 200; 300]))
           (init "btcusdt" "1m")
           (@ev_run_fetch (host (net [100; 200; 300]))) seeded);
    [apply reach_init|vm_compute; reflexivity].
Defined.

Lemma active_iff_connected_witness :
  is_active live = true <-> exists w, ws live = Some w.
Proof.
  exact (@active_iff_connected (host (net [100; 200; 300])) live
           live_reachable).
Defined.

Lemma active_panel_has_candles_witness :
  window live <> [] /\
  forall float_ge,
    @draw_chart_plot (host (net [100; 200; 300])) float_ge live <> None.
Proof.
  apply (@active_panel_has_candles (host (net [100; 200; 300])) live);
    [exact live_by_schedule|vm_compute; reflexivity].
Defined.

(** The frame for 250 is older than the last candle, and is the last candle
    afterwards. *)
Lemma latest_frame_is_last_candle_witness :
  exists p',
    @on_message (host (net [100; 200; 300])) live 1%nat (frame 250 1)
      = Returned p' /\
    Deque.getitem_last (data p') = Returned (candle 250 1).
Proof.
  apply (@latest_frame_is_last_candle (host (net [100; 200; 300])) live
           1%nat (frame 250 1) (candle 250 1));
    [exact live_reachable|vm_compute; reflexivity|vm_compute; reflexivity].
Defined.

Lemma frame_without_kline_raises_witness :
  @on_message offline (panel [100; 200; 300]) 1%nat ack = Raised KeyError /\
  @on_message offline (@stop offline (panel [100; 200; 300])) 1%nat ack
    = Returned (@stop offline (panel [100; 200; 300])).
Proof.
  apply (@frame_without_kline_raises offline (panel [100; 200; 300]) 1%nat
           ack [("result"%string, JNull); ("id"%string, JInt 1)]);
    reflexivity.
Defined.

Lemma one_bad_row_empties_snapshot_witness :
  @format_candle (host short_payload) (row 100) = Returned (candle 100 1) /\
  @fetch_klines (host short_payload) "btcusdt" "1m" 60 = Returned [].
Proof.
  split; [reflexivity|].
  apply (@one_bad_row_empties_snapshot (host short_payload)
           "btcusdt" "1m" 60%nat 200
           (JArr [row 100; JArr [JInt 200; JInt 1]])
           (JArr [row 100; JArr [JInt 200; JInt 1]])
           [row 100; JArr [JInt 200; JInt 1]]
           (JArr [JInt 200; JInt 1]) IndexError);
    [reflexivity|reflexivity|reflexivity|right; left; reflexivity
    |reflexivity].
Defined.

Lemma row_and_frame_agree_witness :
  @parse_kline offline (frame 300 7) =
  @format_candle offline
    (JArr [JInt 300; JInt 1; JInt 2; JInt 0; JInt 7; JInt 5; JStr "extra"]).
Proof.
  apply (@row_and_frame_agree offline (frame 300 7)
           [("k"%string,
             JObj [("t"%string, JInt 300); ("o"%string, JInt 1);
                   ("h"%string, JInt 2); ("l"%string, JInt 0);
                   ("c"%string, JInt 7); ("v"%string, JInt 5)])]
           [("t"%string, JInt 300); ("o"%string, JInt 1);
            ("h"%string, JInt 2); ("l"%string, JInt 0);
            ("c"%string, JInt 7); ("v"%string, JInt 5)]);
    reflexivity.
Defined.

Lemma first_redraw_draws_nothing_witness :
  window seeded <> [] /\
  @draw_chart_plot (host (net [100; 200; 300])) Z.geb seeded = None.
Proof.
  split; [vm_compute; discriminate|].
  apply (@first_redraw_draws_nothing (host (net [100; 200; 300])) Z.geb
           "btcusdt" "1m" seeded seeded).
  vm_compute; reflexivity.
Defined.

(** The full window of 60 candles has a tick at every sixth index. *)
Lemma tick_labels_match_ticks_witness :
  exists plot,
    @draw_chart_plot (host (Returned (200, JArr (map row [1000]))))
      Z.geb full = Some plot /\
    x_ticks plot = [0; 6; 12; 18; 24; 30; 36; 42; 48; 54]%nat /\
    (List.length (x_ticks plot) <= 19)%nat /\
    List.length (x_label_times plot) = List.length (x_ticks plot).
Proof.
  assert (E : exists plot,
             @draw_chart_plot (host (Returned (200, JArr (map row [1000]))))
               Z.geb full = Some plot /\
             x_ticks plot = [0; 6; 12; 18; 24; 30; 36; 42; 48; 54]%nat).
  { eexists. split; vm_compute; reflexivity. }
  destruct E as (plot & Hp & Ht). exists plot.
  destruct (@tick_labels_match_ticks
              (host (Returned (200, JArr (map row [1000]))))
              Z.geb full plot Hp)
    as (H19 & Hlen & _ & _).
  split; [exact Hp|]. split; [exact Ht|]. split; [exact H19|exact Hlen].
Defined.

Lemma with_sol_reachable :
  @App.reachable (host (net [])) (fmt (net [])) with_sol.
Proof.
  apply (@App.reach_step (host (net [])) (fmt (net []))
           (App.init 1%nat 2%nat)
           (@App.ev_toggle_sol (host (net [])) 3%nat));
    [apply App.reach_init|reflexivity].
Qed.

Lemma sol_toggle_consistent_witness :
  Ticker.is_active (App.sol_ticker with_sol) = true /\
  Ticker.packed (App.sol_ticker with_sol) = true /\
  App.sol_btn with_sol = "Hide SOL/USDT"%string.
Proof.
  destruct (@sol_toggle_consistent (host (net [])) (fmt (net []))
              with_sol with_sol_reachable)
    as (H1 & H2 & H3 & _).
  split; [exact H1|]. split; [exact H2|exact H3].
Defined.


End MoreExamples.
